(** * component_requests: the request collection and its Mongo set-up

  A shallow embedding of [component_requests/db/collections.py] and
  [component_requests/db/mongo.py].

  - [Regex]: the regular expressions used by the [pattern=] constraints
    of the Concord identifiers, with a derivative-based matcher proved
    equal to the usual language semantics.
  - [Py]: exceptions and the state-and-exception monad in which the
    methods are written.
  - [Collections]: the enumerations, the [ComponentRequest] document,
    the collection it lives in and the class methods.
  - [Mongo]: the helpers of [mongo.py].

  A [string] holds the UTF-8 bytes of a Python [str]; patterns are
  matched against its code points. The classes [[a-zA-Z]] and [[-_ ]]
  are ASCII; [\d] is any decimal digit, the ASCII ones and those of the
  engine's Unicode table. *)

From Stdlib Require Import Ascii String NArith ZArith Bool.
From stdpp Require Import base option list strings gmap.

Local Open Scope string_scope.
Local Open Scope list_scope.

(* ===================================================================== *)
(** ** Regular expressions *)
(* ===================================================================== *)

Module Regex.

(** A word is a sequence of code points. *)
Definition word := list N.

Inductive re : Type :=
| Void
| Eps
| Cls (p : N -> bool)
| Cat (r1 r2 : re)
| Alt (r1 r2 : re)
| Star (r : re).

(** The language of an expression. *)
Inductive lang : re -> word -> Prop :=
| lang_eps : lang Eps []
| lang_cls p c : p c = true -> lang (Cls p) [c]
| lang_cat r1 r2 u v : lang r1 u -> lang r2 v -> lang (Cat r1 r2) (u ++ v)
| lang_alt_l r1 r2 u : lang r1 u -> lang (Alt r1 r2) u
| lang_alt_r r1 r2 u : lang r2 u -> lang (Alt r1 r2) u
| lang_star_nil r : lang (Star r) []
| lang_star_app r u v : lang r u -> lang (Star r) v -> lang (Star r) (u ++ v).

Fixpoint nullable (r : re) : bool :=
  match r with
  | Void => false
  | Eps => true
  | Cls _ => false
  | Cat r1 r2 => nullable r1 && nullable r2
  | Alt r1 r2 => nullable r1 || nullable r2
  | Star _ => true
  end.

Fixpoint deriv (c : N) (r : re) : re :=
  match r with
  | Void => Void
  | Eps => Void
  | Cls p => if p c then Eps else Void
  | Cat r1 r2 =>
      if nullable r1
      then Alt (Cat (deriv c r1) r2) (deriv c r2)
      else Cat (deriv c r1) r2
  | Alt r1 r2 => Alt (deriv c r1) (deriv c r2)
  | Star r1 => Cat (deriv c r1) (Star r1)
  end.

(** Whole-word match. *)
Fixpoint matches (r : re) (w : word) : bool :=
  match w with
  | [] => nullable r
  | c :: w' => matches (deriv c r) w'
  end.

(** Some prefix of the word matches. *)
Fixpoint match_prefix (r : re) (w : word) : bool :=
  nullable r ||
  match w with
  | [] => false
  | c :: w' => match_prefix (deriv c r) w'
  end.

(** Unanchored search: a match may start at any position and end at any
    later one. *)
Fixpoint search (r : re) (w : word) : bool :=
  match_prefix r w ||
  match w with
  | [] => false
  | _ :: w' => search r w'
  end.

(** Derived forms of the concrete syntax. *)
Definition plus (r : re) : re := Cat r (Star r).
Definition opt (r : re) : re := Alt r Eps.

Fixpoint power (n : nat) (r : re) : re :=
  match n with
  | O => Eps
  | S n' => Cat r (power n' r)
  end.

Fixpoint upto (n : nat) (r : re) : re :=
  match n with
  | O => Eps
  | S n' => opt (Cat r (upto n' r))
  end.

(** [r{m,n}] *)
Definition bounded (m n : nat) (r : re) : re :=
  Cat (power m r) (upto (n - m) r).

(** The tables of the regular-expression engine are not part of the
    repository: which code points beyond ASCII are decimal digits is
    taken as given. *)
Class Unicode : Type := {
  decimal_digit : N -> bool
}.

(** Character classes. *)
Definition in_range (lo hi : N) (c : N) : bool :=
  (lo <=? c)%N && (c <=? hi)%N.

Definition letter (c : N) : bool :=
  in_range 97 122 c || in_range 65 90 c.
Definition separator (c : N) : bool :=
  (c =? 45)%N || (c =? 95)%N || (c =? 32)%N.

(** [\d]: [0-9], and beyond ASCII whatever the engine's table says. *)
Definition digit {U : Unicode} (c : N) : bool :=
  if (c <? 128)%N then in_range 48 57 c else decimal_digit c.

(** The code points of a UTF-8 byte sequence. A lead byte announces one
    to three continuation bytes, of which the low six bits count; a byte
    sequence that is no encoding cannot come from a [str], and its bytes
    are passed through as they are. *)
Definition continuation (b : N) : N := N.land b 63.

Fixpoint decode (bs : list N) : list N :=
  match bs with
  | [] => []
  | b0 :: bs1 =>
      if (b0 <? 192)%N then b0 :: decode bs1
      else if (b0 <? 224)%N then
        match bs1 with
        | b1 :: bs2 =>
            (N.land b0 31 * 64 + continuation b1)%N :: decode bs2
        | _ => b0 :: decode bs1
        end
      else if (b0 <? 240)%N then
        match bs1 with
        | b1 :: b2 :: bs3 =>
            (N.land b0 15 * 4096 + continuation b1 * 64
             + continuation b2)%N :: decode bs3
        | _ => b0 :: decode bs1
        end
      else
        match bs1 with
        | b1 :: b2 :: b3 :: bs4 =>
            (N.land b0 7 * 262144 + continuation b1 * 4096
             + continuation b2 * 64 + continuation b3)%N :: decode bs4
        | _ => b0 :: decode bs1
        end
  end.

Definition code_points (s : string) : word :=
  decode (List.map N_of_ascii (list_ascii_of_string s)).

End Regex.

(* ===================================================================== *)
(** ** Exceptions and the monad of the methods *)
(* ===================================================================== *)

Module Py.

(** The exception classes the two modules raise, catch or let through.
    A class stands for itself and its subclasses. *)
Inductive exn : Type :=
| ValidationError (report : list string)   (* pydantic.ValidationError *)
| ConnectionFailure (msg : string)         (* pymongo.errors.ConnectionFailure *)
| ConnectionError (msg : string)           (* builtin, raised by mongo.py *)
| AssertionError (msg : string)
| NameError (name : string)
| OtherError (msg : string).               (* any other [Exception] *)

Definition newline : string := String "010"%char EmptyString.

(** [str(e)]. A validation error carries its report, line by line; the
    other exceptions carry their message. *)
Definition str (e : exn) : string :=
  match e with
  | ValidationError report => String.concat newline report
  | ConnectionFailure msg => msg
  | ConnectionError msg => msg
  | AssertionError msg => msg
  | NameError name => "name '" +:+ name +:+ "' is not defined"
  | OtherError msg => msg
  end.

(** Every class above derives from [Exception]. *)
Definition is_Exception (e : exn) : bool := true.

Inductive outcome (A : Type) : Type :=
| Ret (a : A)
| Raise (e : exn).
Arguments Ret {A} a.
Arguments Raise {A} e.

(** A computation over a state [S]: what it returns or raises, and the
    state it leaves.  Effects done before a [raise] stay done. *)
Definition M (S A : Type) : Type := S -> outcome A * S.

Definition ret {S A} (a : A) : M S A := fun s => (Ret a, s).
Definition raise {S A} (e : exn) : M S A := fun s => (Raise e, s).

Definition bind {S A B} (m : M S A) (k : A -> M S B) : M S B :=
  fun s =>
    match m s with
    | (Ret a, s') => k a s'
    | (Raise e, s') => (Raise e, s')
    end.

(** [try: m  except ...: h e]; [h e = None] when no clause matches [e]. *)
Definition try_except {S A} (m : M S A) (h : exn -> option (M S A)) : M S A :=
  fun s =>
    match m s with
    | (Ret a, s') => (Ret a, s')
    | (Raise e, s') =>
        match h e with
        | Some k => k s'
        | None => (Raise e, s')
        end
    end.

Definition gets {S A} (f : S -> A) : M S A := fun s => (Ret (f s), s).
Definition modify {S} (f : S -> S) : M S unit := fun s => (Ret tt, f s).

(** A pure computation that may raise, run inside [M]. *)
Definition lift {S A} (o : outcome A) : M S A := fun s => (o, s).

Declare Scope py_scope.
Delimit Scope py_scope with py.
Notation "x <- m ;; k" := (bind m (fun x => k))
  (at level 100, m at next level, right associativity) : py_scope.
Notation "m ;;; k" := (bind m (fun _ => k))
  (at level 100, right associativity) : py_scope.

End Py.

(* ===================================================================== *)
(** ** The driver and the process environment *)
(* ===================================================================== *)

Module Motor.
Import Py.

(** What a client was built from, and a database handle. *)
Record Client : Type := { client_host : option string }.
Record Database : Type := { db_client : Client; db_name : string }.

(** The driver is not part of the repository: its constructor and its
    database accessor are taken as given, and either may raise. *)
Record Driver : Type := {
  AsyncIOMotorClient : option string -> outcome Client;
  get_database : Client -> string -> outcome Database
}.

(** A driver that defers all work to the first round trip. *)
Definition deferred : Driver :=
  {| AsyncIOMotorClient := fun host => Ret {| client_host := host |};
     get_database := fun c name => Ret {| db_client := c; db_name := name |} |}.

(** Nor is the validation library: the report it writes for the fields
    of a model that fail, given with their values, and the one it writes
    for a text that is no document key, are taken as given. *)
Record Validator : Type := {
  error_report : list (string * string) -> list string;
  id_report : string -> list string
}.

(** A validator whose reports name what failed, one line each. *)
Definition terse : Validator :=
  {| error_report := List.map fst;
     id_report := fun text => [text] |}.

(** [os.getenv(key)] and [os.getenv(key, default)] *)
Definition getenv (environ : gmap string string) (key : string) : option string :=
  environ !! key.

Definition getenv_default (environ : gmap string string) (key default : string)
  : string :=
  match environ !! key with
  | Some v => v
  | None => default
  end.

End Motor.

(* ===================================================================== *)
(** ** collections.py *)
(* ===================================================================== *)

Module Collections.
Import Py Motor.
Local Open Scope py_scope.

Inductive Status : Type :=
| NEW | IN_PROGRESS | NEEDS_FOOTPRINT | QC | COMPLETE | REJECTED | REMOVED | DELETE.

Inductive RequestType : Type :=
| COMPONENT_FULL | SYMBOL_ONLY | COMPONENT_FOOTPRINT | FOOTPRINT_ONLY.

Inductive Librarian : Type :=
| RAYMOND_GLOVER | RENE_BROWN | MARK_HOUCK | PAUL_SHAVER | MAX_LUDDEN.

Inductive Solution : Type :=
| FOOTPRINT_EXPERT_BUILD | FOOTPRINT_EXPERT_DOWNLOAD | EXISTING
| MANUFACTURER_SPECIFICATION | COPIED_FROM.

(** The string label an enumeration member is stored as. *)
Definition Status_value (s : Status) : string :=
  match s with
  | NEW => "New" | IN_PROGRESS => "In Progress"
  | NEEDS_FOOTPRINT => "Needs Footprint" | QC => "QC"
  | COMPLETE => "Complete" | REJECTED => "Rejected"
  | REMOVED => "Removed" | DELETE => "Delete"
  end.

Definition RequestType_value (t : RequestType) : string :=
  match t with
  | COMPONENT_FULL => "Component Full" | SYMBOL_ONLY => "Symbol Only"
  | COMPONENT_FOOTPRINT => "Component Footprint"
  | FOOTPRINT_ONLY => "Footprint Only"
  end.

Definition Solution_value (s : Solution) : string :=
  match s with
  | FOOTPRINT_EXPERT_BUILD => "Footprint Expert Build"
  | FOOTPRINT_EXPERT_DOWNLOAD => "Footprint Expert Download"
  | EXISTING => "Existing"
  | MANUFACTURER_SPECIFICATION => "Manufacturer Specification"
  | COPIED_FROM => "Copied From"
  end.

Definition ObjectId : Type := N.
Definition datetime : Type := Z.

(** The document.  [id] is the key the store assigns on insertion; it
    is [None] on a document that was built but not inserted yet. *)
Record ComponentRequest : Type := {
  id : option ObjectId;
  requester : string;
  request_date : datetime;
  status : Status;
  request_type : RequestType;
  librarian : Librarian;
  project : string;
  task : string;
  concord_id : option string;
  concord_folder : string;
  manufacturer : option string;
  part_number : option string;
  manufacturer_link : option string;
  solution : Solution;
  concord_footprint_id : option string;
  footprint_name : option string
}.

(** [request.status = status] *)
Definition set_status (s : Status) (r : ComponentRequest) : ComponentRequest :=
  {| id := id r; requester := requester r; request_date := request_date r;
     status := s; request_type := request_type r; librarian := librarian r;
     project := project r; task := task r; concord_id := concord_id r;
     concord_folder := concord_folder r; manufacturer := manufacturer r;
     part_number := part_number r; manufacturer_link := manufacturer_link r;
     solution := solution r; concord_footprint_id := concord_footprint_id r;
     footprint_name := footprint_name r |}.

Definition set_id (i : ObjectId) (r : ComponentRequest) : ComponentRequest :=
  {| id := Some i; requester := requester r; request_date := request_date r;
     status := status r; request_type := request_type r; librarian := librarian r;
     project := project r; task := task r; concord_id := concord_id r;
     concord_folder := concord_folder r; manufacturer := manufacturer r;
     part_number := part_number r; manufacturer_link := manufacturer_link r;
     solution := solution r; concord_footprint_id := concord_footprint_id r;
     footprint_name := footprint_name r |}.

(** [pattern=r"[a-zA-Z]{1,6}[-_ ]\d+[-_ ]\d+"], the same on both
    Concord fields. *)
Definition concord_pattern {U : Regex.Unicode} : Regex.re :=
  Regex.Cat (Regex.bounded 1 6 (Regex.Cls Regex.letter))
 (Regex.Cat (Regex.Cls Regex.separator)
 (Regex.Cat (Regex.plus (Regex.Cls Regex.digit))
 (Regex.Cat (Regex.Cls Regex.separator)
            (Regex.plus (Regex.Cls Regex.digit))))).

(** The [pattern] constraint of a field: the pattern is searched for in
    the value, it is not anchored at either end. *)
Definition pattern_ok (pattern : Regex.re) (value : string) : bool :=
  Regex.search pattern (Regex.code_points value).

(** An [Optional[str]] field with a pattern: [None] is accepted as is. *)
Definition optional_pattern_ok (pattern : Regex.re) (value : option string) : bool :=
  match value with
  | None => true
  | Some s => pattern_ok pattern s
  end.

(** The anchored reading [^[A-Za-z]{1,6}[-_ ]\d+[-_ ]\d+$]: the whole
    value is one identifier. *)
Definition anchored_ok {U : Regex.Unicode} (value : string) : bool :=
  Regex.matches concord_pattern (Regex.code_points value).

(** The world the methods run in. Every round trip to the store takes
    the next entry of [faults]: [Some e] makes it raise [e], [None] or an
    exhausted list lets it go through. *)
Record World : Type := {
  environ : gmap string string;
  motor : Driver;
  docs : list ComponentRequest;      (* the collection, in storage order *)
  next_id : ObjectId;
  clock : datetime;
  faults : list (option exn);
  stdout : list string;
  pydantic : Validator
}.

Definition set_docs (ds : list ComponentRequest) (w : World) : World :=
  {| environ := environ w; motor := motor w; docs := ds; next_id := next_id w;
     clock := clock w; faults := faults w; stdout := stdout w;
     pydantic := pydantic w |}.
Definition set_next_id (n : ObjectId) (w : World) : World :=
  {| environ := environ w; motor := motor w; docs := docs w; next_id := n;
     clock := clock w; faults := faults w; stdout := stdout w;
     pydantic := pydantic w |}.
Definition set_faults (fs : list (option exn)) (w : World) : World :=
  {| environ := environ w; motor := motor w; docs := docs w; next_id := next_id w;
     clock := clock w; faults := fs; stdout := stdout w;
     pydantic := pydantic w |}.
Definition set_stdout (out : list string) (w : World) : World :=
  {| environ := environ w; motor := motor w; docs := docs w; next_id := next_id w;
     clock := clock w; faults := faults w; stdout := out;
     pydantic := pydantic w |}.

Definition round_trip : M World unit :=
  fun w =>
    match faults w with
    | [] => (Ret tt, w)
    | None :: fs => (Ret tt, set_faults fs w)
    | Some e :: fs => (Raise e, set_faults fs w)
    end.

(** [print(line)] *)
Definition print (line : string) : M World unit :=
  modify (fun w => set_stdout (stdout w ++ [line]) w).

Definition has_id (i : ObjectId) (r : ComponentRequest) : bool :=
  match id r with
  | Some j => (i =? j)%N
  | None => false
  end.

Definition same_id (r d : ComponentRequest) : bool :=
  match id r with
  | Some i => has_id i d
  | None => false
  end.

(** *** The store operations of the document class *)

(** The [request_id: str] argument as the look-up reads it: the text of
    a document key, which stands for that key, or a text that is the text
    of no key. *)
Inductive id_text : Type :=
| text_of (key : N)
| malformed (text : string).

Coercion text_of : N >-> id_text.

(** [ComponentRequest.get(request_id)]: the text is turned into a key
    first, which fails with a validation error, before the store is
    asked, when it is the text of no key. *)
Definition get (request_id : id_text) : M World (option ComponentRequest) :=
  match request_id with
  | malformed text =>
      validator <- gets pydantic ;;
      raise (ValidationError (id_report validator text))
  | text_of key =>
      round_trip ;;;
      gets (fun w => List.find (has_id key) (docs w))
  end.

(** [ComponentRequest.find_all().to_list()] *)
Definition find_all : M World (list ComponentRequest) :=
  round_trip ;;;
  gets docs.

(** [request.insert()]: the store assigns the key and appends. *)
Definition insert (r : ComponentRequest) : M World ComponentRequest :=
  round_trip ;;;
  i <- gets next_id ;;
  let r' := set_id i r in
  modify (fun w => set_next_id (i + 1)%N (set_docs (docs w ++ [r']) w)) ;;;
  ret r'.

(** The store changes or removes at most one document per call: the
    first one with the key. *)
Fixpoint replace_one (r : ComponentRequest) (ds : list ComponentRequest)
  : option (list ComponentRequest) :=
  match ds with
  | [] => None
  | d :: ds' =>
      if same_id r d then Some (r :: ds')
      else match replace_one r ds' with
           | Some ds'' => Some (d :: ds'')
           | None => None
           end
  end.

Fixpoint delete_one (r : ComponentRequest) (ds : list ComponentRequest)
  : list ComponentRequest :=
  match ds with
  | [] => []
  | d :: ds' => if same_id r d then ds' else d :: delete_one r ds'
  end.

(** [request.save()]: the stored document with this key is replaced by
    the current one; when there is none the document is added. *)
Definition save (r : ComponentRequest) : M World unit :=
  round_trip ;;;
  modify (fun w =>
    match replace_one r (docs w) with
    | Some ds => set_docs ds w
    | None => set_docs (docs w ++ [r]) w
    end).

(** [request.delete()] *)
Definition delete (r : ComponentRequest) : M World unit :=
  round_trip ;;;
  modify (fun w => set_docs (delete_one r (docs w)) w).

(** [init_beanie(database=..., document_models=[ComponentRequest])] *)
Definition init_beanie (database : Database) : M World unit :=
  round_trip.

(** *** The model constructor *)

(** [ComponentRequest(requester=..., ...)]: [request_date] comes from
    its default factory, [id] is left unset, and the field constraints
    are checked; all failing fields are reported in one
    [ValidationError], whose report is the validation library's. *)
Definition pattern_error (field : string) (value : option string)
  : list (string * string) :=
  match value with
  | Some s => [(field, s)]
  | None => []
  end.

Definition new_ComponentRequest {U : Regex.Unicode}
    (requester : string) (status : Status) (request_type : RequestType)
    (librarian : Librarian) (project task : string)
    (concord_id : option string) (concord_folder : string)
    (manufacturer part_number manufacturer_link : option string)
    (solution : Solution) (concord_footprint_id footprint_name : option string)
  : M World ComponentRequest :=
  now <- gets clock ;;
  let errors :=
    (if optional_pattern_ok concord_pattern concord_id
     then [] else pattern_error "concord_id" concord_id) ++
    (if optional_pattern_ok concord_pattern concord_footprint_id
     then [] else pattern_error "concord_footprint_id" concord_footprint_id) in
  match errors with
  | [] =>
      ret {| id := None; requester := requester; request_date := now;
             status := status; request_type := request_type;
             librarian := librarian; project := project; task := task;
             concord_id := concord_id; concord_folder := concord_folder;
             manufacturer := manufacturer; part_number := part_number;
             manufacturer_link := manufacturer_link; solution := solution;
             concord_footprint_id := concord_footprint_id;
             footprint_name := footprint_name |}
  | _ :: _ =>
      validator <- gets pydantic ;;
      raise (ValidationError (error_report validator errors))
  end.

(** *** The class methods *)

(** The keyword arguments of [create_request]; every one defaults to
    [None], [test] to [False]. *)
Module kw.
Record t : Type := {
  requester : option string;
  status : option Status;
  request_type : option RequestType;
  librarian : option Librarian;
  project : option string;
  task : option string;
  concord_id : option string;
  concord_folder : option string;
  manufacturer : option string;
  part_number : option string;
  manufacturer_link : option string;
  solution : option Solution;
  concord_footprint_id : option string;
  footprint_name : option string;
  test : bool
}.

(** [create_request()] *)
Definition none : t :=
  {| requester := None; status := None; request_type := None;
     librarian := None; project := None; task := None;
     concord_id := None; concord_folder := None; manufacturer := None;
     part_number := None; manufacturer_link := None; solution := None;
     concord_footprint_id := None; footprint_name := None; test := false |}.
End kw.

(** [x if x is not None else d] *)
Definition if_not_None {A : Type} (x : option A) (d : A) : A :=
  match x with
  | Some v => v
  | None => d
  end.

Definition init_db : M World Database :=
  env <- gets environ ;;
  driver <- gets motor ;;
  client <- lift (AsyncIOMotorClient driver (getenv env "MONGO_URI")) ;;
  database <- lift (get_database driver client
                      (getenv_default env "MONGO_DB" "requests")) ;;
  init_beanie database ;;;
  ret database.

Definition create_request {U : Regex.Unicode} (a : kw.t) : M World unit :=
  new_request <-
    (if kw.test a then
       new_ComponentRequest
         "Max Ludden" NEW COMPONENT_FULL MAX_LUDDEN
         "[INT] Internal" "Training"
         (Some "INT-123-456") "Capacitor"
         (Some "Murata") (Some "GRM155R71H103KA01D")
         (Some "https://www.murata.com/en-us/products/productdetail?partno=GRM155R71H103KA01D")
         COPIED_FROM (Some "INT-123-456") (Some "0805_h1.5_n")
     else
       new_ComponentRequest
         (if_not_None (kw.requester a) "")
         (if_not_None (kw.status a) NEW)
         (if_not_None (kw.request_type a) COMPONENT_FULL)
         (if_not_None (kw.librarian a) RAYMOND_GLOVER)
         (if_not_None (kw.project a) "")
         (if_not_None (kw.task a) "")
         (kw.concord_id a)
         (if_not_None (kw.concord_folder a) "")
         (kw.manufacturer a)
         (kw.part_number a)
         (kw.manufacturer_link a)
         (if_not_None (kw.solution a) EXISTING)
         (kw.concord_footprint_id a)
         (kw.footprint_name a)) ;;
  insert new_request ;;;
  ret tt.

Definition get_all_requests : M World (list ComponentRequest) :=
  find_all.

(** A [try] body either runs to its end or leaves the method through
    [return]. *)
Inductive flow (A : Type) : Type :=
| Next
| Return (a : A).
Arguments Next {A}.
Arguments Return {A} a.

Definition update_request (request_id : id_text) (status : Status)
  : M World bool :=
  request <- get request_id ;;
  match request with
  | Some request =>
      let request := set_status status request in
      f <- try_except
             (save request ;;; ret Next)
             (fun e =>
                match e with
                | ValidationError _ => Some (ret (Return false))
                | _ => None
                end) ;;
      match f with
      | Return b => ret b
      | Next => ret false
      end
  | None => ret false
  end.

Definition delete_request (request_id : id_text) : M World bool :=
  request <- get request_id ;;
  match request with
  | Some request =>
      try_except
        (delete request ;;;
         ret false)
        (fun e =>
           match e with
           | ValidationError _ =>
               Some (print ("Validation error occurred while deleting the request: "
                            +:+ str e) ;;;
                     ret false)
           | ConnectionFailure _ =>
               Some (print ("Database error occurred while deleting the request: "
                            +:+ str e) ;;;
                     ret false)
           | _ => None
           end)
  | None => ret false
  end.

(** *** Members and look-up by label *)

Definition Librarian_value (l : Librarian) : string :=
  match l with
  | RAYMOND_GLOVER => "Raymond Glover" | RENE_BROWN => "René Brown"
  | MARK_HOUCK => "Mark Houck" | PAUL_SHAVER => "Paul Shaver"
  | MAX_LUDDEN => "Max Ludden"
  end.

(** The members of each enumeration, in definition order. *)
Definition Status_members : list Status :=
  [NEW; IN_PROGRESS; NEEDS_FOOTPRINT; QC; COMPLETE; REJECTED; REMOVED; DELETE].
Definition RequestType_members : list RequestType :=
  [COMPONENT_FULL; SYMBOL_ONLY; COMPONENT_FOOTPRINT; FOOTPRINT_ONLY].
Definition Librarian_members : list Librarian :=
  [RAYMOND_GLOVER; RENE_BROWN; MARK_HOUCK; PAUL_SHAVER; MAX_LUDDEN].
Definition Solution_members : list Solution :=
  [FOOTPRINT_EXPERT_BUILD; FOOTPRINT_EXPERT_DOWNLOAD; EXISTING;
   MANUFACTURER_SPECIFICATION; COPIED_FROM].

(** [cls(value)] on an enumeration: the first member with that value,
    [ValueError] when there is none. *)
Definition by_value {E : Type} (cls : string) (value_of : E -> string)
    (members : list E) (value : string) : outcome E :=
  match List.find (fun m => String.eqb (value_of m) value) members with
  | Some m => Ret m
  | None => Raise (OtherError ("'" +:+ value +:+ "' is not a valid " +:+ cls))
  end.

Definition Status_of_value : string -> outcome Status :=
  by_value "Status" Status_value Status_members.
Definition RequestType_of_value : string -> outcome RequestType :=
  by_value "RequestType" RequestType_value RequestType_members.
Definition Librarian_of_value : string -> outcome Librarian :=
  by_value "Librarian" Librarian_value Librarian_members.
Definition Solution_of_value : string -> outcome Solution :=
  by_value "Solution" Solution_value Solution_members.

(** *** The example run *)

Section Main.

Context {U : Regex.Unicode}.

(** [str(req)], the rendering of a document by its model class. *)
Variable repr : ComponentRequest -> string.

(** [for req in requests: print(req)] *)
Fixpoint print_each (requests : list ComponentRequest) : M World unit :=
  match requests with
  | [] => ret tt
  | req :: rest => print (repr req) ;;; print_each rest
  end.

(** The last statement of [main] is [asyncio.run(main())], inside the
    coroutine itself: [main()] only builds a coroutine object, and
    [asyncio.run] refuses to start under the event loop that is running
    this body, with a [RuntimeError]. *)
Definition main : M World unit :=
  try_except
    (init_db ;;;
     create_request kw.none ;;;
     requests <- get_all_requests ;;
     print_each requests)
    (fun e =>
       match e with
       | ValidationError _ => Some (print ("An error occurred: " +:+ str e))
       | _ => None
       end) ;;;
  raise (OtherError "asyncio.run() cannot be called from a running event loop").

End Main.

End Collections.

(* ===================================================================== *)
(** ** mongo.py *)
(* ===================================================================== *)

Module Mongo.
Import Py Motor.
Local Open Scope py_scope.

(** The process the helpers run in: the environment after
    [load_dotenv()], the driver, and what was sent to the console. *)
Record Process : Type := {
  environ : gmap string string;
  motor : Driver;
  console : list string
}.

Definition console_log (line : string) : M Process unit :=
  modify (fun p => {| environ := environ p; motor := motor p;
                      console := console p ++ [line] |}).

(** The names bound at module level. *)
Definition module_globals : list string :=
  [ "annotations"; "getenv"; "init_beanie"; "load_dotenv";
    "AsyncIOMotorClient"; "AsyncIOMotorDatabase"; "get_console";
    "get_logger"; "console"; "logger"; "VERBOSE"; "get_mongo_uri";
    "get_client"; "get_requests_db"; "init_db" ].

(** Reading a global name; none of the names read here is a builtin. *)
Definition load_global (name : string) : M Process unit :=
  if existsb (String.eqb name) module_globals
  then ret tt
  else raise (NameError name).

Definition VERBOSE : bool := false.

(** Truth value of a [str]. *)
Definition truthy (s : string) : bool :=
  match s with
  | EmptyString => false
  | String _ _ => true
  end.

Definition get_mongo_uri (verbose : bool) : M Process string :=
  env <- gets environ ;;
  let uri := getenv_default env "MONGO_URI" "op://Dev/Mongo-AppliedLogix/uri" in
  if truthy uri
  then ret uri
  else raise (AssertionError "MONGO_URI is not set in environment variables.").

Definition get_client (verbose : bool) : M Process Client :=
  try_except
    (uri <- get_mongo_uri VERBOSE ;;
     driver <- gets motor ;;
     client <- lift (AsyncIOMotorClient driver (Some uri)) ;;
     (if verbose
      then console_log "[i #00ff00]Connected to the[/][b #ffffff]Requests[/] [i #00ff00]database...[/]"
      else ret tt) ;;;
     ret client)
    (fun e =>
       if is_Exception e
       then Some (console_log ("Failed to connect to the database: " +:+ str e) ;;;
                  raise (ConnectionError
                           ("Failed to connect to the database: " +:+ str e)))
       else None).

Definition get_requests_db (verbose : bool) : M Process Database :=
  client <- get_client VERBOSE ;;
  try_except
    (env <- gets environ ;;
     driver <- gets motor ;;
     lift (get_database driver client
             (getenv_default env "MONGO_DB" "op://Dev/Mongo-AppliedLogix/db")))
    (fun e =>
       if is_Exception e
       then Some (raise (ConnectionError
                           ("Failed to connect to the database: " +:+ str e)))
       else None).

(** One statement [init_beanie(database=get_requests_db(),
    document_models=[Request])]: the callee is read, then the arguments
    are evaluated left to right; the call itself only builds a coroutine
    that nobody awaits. *)
Definition init_beanie_statement : M Process unit :=
  load_global "init_beanie" ;;;
  database <- get_requests_db VERBOSE ;;
  load_global "Request" ;;;
  ret tt.

Definition init_db (verbose : bool) : M Process unit :=
  init_beanie_statement ;;;
  init_beanie_statement.

End Mongo.

(* ===================================================================== *)
(** ** Vocabulary of the statements, and sample worlds *)
(* ===================================================================== *)

Module Samples.
Import Py Motor Collections.

(** A table with the decimal digits of four scripts beyond ASCII:
    Arabic-Indic, Eastern Arabic-Indic, Devanagari and the fullwidth
    forms. *)
#[export] Instance four_scripts : Regex.Unicode :=
  {| Regex.decimal_digit := fun c =>
       Regex.in_range 1632 1641 c || Regex.in_range 1776 1785 c ||
       Regex.in_range 2406 2415 c || Regex.in_range 65296 65305 c |}.

(** Two documents that agree on everything but [status]. *)
Definition same_except_status (d d' : ComponentRequest) : Prop :=
  id d = id d' /\
  requester d = requester d' /\
  request_date d = request_date d' /\
  request_type d = request_type d' /\
  librarian d = librarian d' /\
  project d = project d' /\
  task d = task d' /\
  concord_id d = concord_id d' /\
  concord_folder d = concord_folder d' /\
  manufacturer d = manufacturer d' /\
  part_number d = part_number d' /\
  manufacturer_link d = manufacturer_link d' /\
  solution d = solution d' /\
  concord_footprint_id d = concord_footprint_id d' /\
  footprint_name d = footprint_name d'.

(** The next round trip goes through. *)
Definition store_up (w : World) : Prop :=
  match faults w with
  | Some _ :: _ => False
  | _ => True
  end.

(** The world once a round trip has used up its entry of [faults]. *)
Definition after_round_trip (w : World) : World :=
  match faults w with
  | [] => w
  | _ :: fs => set_faults fs w
  end.

(** The record [create_request(test=True)] builds, as stored under key
    [i] at time [now]. *)
Definition canonical (i : ObjectId) (now : datetime) : ComponentRequest :=
  {| id := Some i; requester := "Max Ludden"; request_date := now;
     status := NEW; request_type := COMPONENT_FULL; librarian := MAX_LUDDEN;
     project := "[INT] Internal"; task := "Training";
     concord_id := Some "INT-123-456"; concord_folder := "Capacitor";
     manufacturer := Some "Murata"; part_number := Some "GRM155R71H103KA01D";
     manufacturer_link :=
       Some "https://www.murata.com/en-us/products/productdetail?partno=GRM155R71H103KA01D";
     solution := COPIED_FROM; concord_footprint_id := Some "INT-123-456";
     footprint_name := Some "0805_h1.5_n" |}.

(** An empty collection behind a store with nothing going wrong. *)
Definition empty_world : World :=
  {| Collections.environ := ∅; Collections.motor := deferred; docs := [];
     next_id := 0%N; clock := 1000%Z; faults := []; stdout := [];
     pydantic := terse |}.

(** The same store holding the canonical record under key 0. *)
Definition one_request : World :=
  {| Collections.environ := ∅; Collections.motor := deferred;
     docs := [canonical 0%N 1000%Z]; next_id := 1%N; clock := 2000%Z;
     faults := []; stdout := [];
     pydantic := terse |}.

(** [create_request(concord_id=cid, concord_footprint_id=fid, test=t)] *)
Definition kw_concord (cid fid : option string) (t : bool) : kw.t :=
  {| kw.requester := None; kw.status := None; kw.request_type := None;
     kw.librarian := None; kw.project := None; kw.task := None;
     kw.concord_id := cid; kw.concord_folder := None;
     kw.manufacturer := None; kw.part_number := None;
     kw.manufacturer_link := None; kw.solution := None;
     kw.concord_footprint_id := fid; kw.footprint_name := None;
     kw.test := t |}.

(** A process with the given environment and a silent console. *)
Definition process (env : gmap string string) : Mongo.Process :=
  {| Mongo.environ := env; Mongo.motor := deferred; Mongo.console := [] |}.


(** An exception other than the two [delete_request] has clauses for. *)
Definition uncaught_by_delete (e : exn) : bool :=
  match e with
  | ValidationError _ | ConnectionFailure _ => false
  | _ => true
  end.

(** An exception other than the one [update_request] has a clause for. *)
Definition uncaught_by_update (e : exn) : bool :=
  match e with
  | ValidationError _ => false
  | _ => true
  end.

(** What [delete_request] prints for an exception it catches. *)
Definition delete_message (e : exn) : string :=
  match e with
  | ValidationError _ =>
      "Validation error occurred while deleting the request: " +:+ str e
  | _ => "Database error occurred while deleting the request: " +:+ str e
  end.

(** The canonical record under key 0 and a second document under key 1. *)
Definition two_requests : World :=
  {| Collections.environ := ∅; Collections.motor := deferred;
     docs := [canonical 0%N 1000%Z; set_status QC (canonical 1%N 1500%Z)];
     next_id := 2%N; clock := 2000%Z; faults := []; stdout := [];
     pydantic := terse |}.

(** A driver whose client constructor always fails. *)
Definition unreachable : Driver :=
  {| AsyncIOMotorClient := fun _ => Raise (OtherError "invalid URI");
     get_database := fun c name => Ret {| db_client := c; db_name := name |} |}.

(** A rendering of a document that shows its requester. *)
Definition by_requester (d : ComponentRequest) : string := requester d.

(** A Concord identifier, spelled out: one to six letters, a separator,
    digits, a separator, digits. *)
Definition concord_shape {U : Regex.Unicode} (u : list N) : Prop :=
  exists letters s1 digits1 s2 digits2,
    u = letters ++ s1 :: digits1 ++ s2 :: digits2 /\
    (1 <= length letters /\ length letters <= 6) /\
    Forall (fun c => Regex.letter c = true) letters /\
    Regex.separator s1 = true /\
    digits1 <> [] /\ Forall (fun c => Regex.digit c = true) digits1 /\
    Regex.separator s2 = true /\
    digits2 <> [] /\ Forall (fun c => Regex.digit c = true) digits2.

(** A console line is the one [get_client] writes when it cannot
    connect, for the given cause. *)
Definition failed_to_connect (cause : exn) : string :=
  "Failed to connect to the database: " +:+ str cause.

(** A process after one more console line. *)
Definition logged (line : string) (p : Mongo.Process) : Mongo.Process :=
  {| Mongo.environ := Mongo.environ p; Mongo.motor := Mongo.motor p;
     Mongo.console := Mongo.console p ++ [line] |}.

(** A process like [process env], behind the given driver. *)
Definition process_with (driver : Driver) (env : gmap string string)
  : Mongo.Process :=
  {| Mongo.environ := env; Mongo.motor := driver; Mongo.console := [] |}.

End Samples.

(* ===================================================================== *)
(** * Properties *)
(* ===================================================================== *)

(** ** The matcher computes the language *)

Section RegexFacts.
Import Regex.

Lemma nullable_lang (r : re) : nullable r = true <-> lang r [].
Proof.
  split.
  - induction r as [| | p | r1 IH1 r2 IH2 | r1 IH1 r2 IH2 | r IH];
      simpl; intros H; try discriminate.
    + constructor.
    + apply andb_true_iff in H as [H1 H2].
      change (@nil N) with (@nil N ++ []). constructor; auto.
    + apply orb_true_iff in H as [H | H];
        [apply lang_alt_l | apply lang_alt_r]; auto.
    + constructor.
  - induction r as [| | p | r1 IH1 r2 IH2 | r1 IH1 r2 IH2 | r IH];
      simpl; intros H; inversion H; subst; auto.
    + destruct u; [| discriminate]. destruct v; [| discriminate].
      rewrite IH1, IH2; auto.
    + rewrite IH1; auto.
    + rewrite IH2; auto using orb_true_r.
Qed.

Lemma lang_star_cons_inv (r : re) (c : N) (w : word) :
  lang (Star r) (c :: w) ->
  exists u v, w = u ++ v /\ lang r (c :: u) /\ lang (Star r) v.
Proof.
  intros H. remember (Star r) as s eqn:Es. remember (c :: w) as cw eqn:Ew.
  revert c w Es Ew.
  induction H as [| | | | | r' | r' u v Hu _ Hv IHv]; intros c0 w0 Es Ew;
    try discriminate.
  injection Es as Er. subst r'.
  destruct u as [| a u'].
  - simpl in Ew. apply IHv; auto.
  - simpl in Ew. injection Ew as Ea Eu. subst a w0. exists u', v. auto.
Qed.

Lemma lang_void_inv (w : word) : ~ lang Void w.
Proof. intros H. inversion H. Qed.

Lemma lang_eps_inv (w : word) : lang Eps w -> w = [].
Proof. intros H. inversion H. reflexivity. Qed.

Lemma lang_cls_inv (p : N -> bool) (w : word) :
  lang (Cls p) w -> exists c, w = [c] /\ p c = true.
Proof. intros H. inversion H; subst. eauto. Qed.

Lemma lang_cat_inv (r1 r2 : re) (w : word) :
  lang (Cat r1 r2) w -> exists u v, w = u ++ v /\ lang r1 u /\ lang r2 v.
Proof. intros H. inversion H; subst. eauto. Qed.

Lemma lang_alt_inv (r1 r2 : re) (w : word) :
  lang (Alt r1 r2) w -> lang r1 w \/ lang r2 w.
Proof. intros H. inversion H; subst; auto. Qed.

Lemma lang_cat_cons (r1 r2 : re) (c : N) (u v : word) :
  lang r1 (c :: u) -> lang r2 v -> lang (Cat r1 r2) (c :: u ++ v).
Proof. intros Hu Hv. apply (lang_cat r1 r2 (c :: u) v); assumption. Qed.

Lemma deriv_lang (c : N) (r : re) (w : word) :
  lang (deriv c r) w <-> lang r (c :: w).
Proof.
  revert w.
  induction r as [| | p | r1 IH1 r2 IH2 | r1 IH1 r2 IH2 | r IH];
    intros w; simpl.
  - split; intros H; destruct (lang_void_inv _ H).
  - split; intros H; [destruct (lang_void_inv _ H) |].
    apply lang_eps_inv in H. discriminate.
  - destruct (p c) eqn:Hp; split; intros H.
    + apply lang_eps_inv in H as ->. constructor; assumption.
    + apply lang_cls_inv in H as (c' & Eq & _). injection Eq as _ ->.
      constructor.
    + destruct (lang_void_inv _ H).
    + apply lang_cls_inv in H as (c' & Eq & Hc). injection Eq as <- _.
      congruence.
  - destruct (nullable r1) eqn:Hn.
    + split; intros H.
      * apply lang_alt_inv in H as [H | H].
        -- apply lang_cat_inv in H as (u & v & -> & Hu & Hv).
           apply lang_cat_cons; [apply IH1 |]; assumption.
        -- apply (lang_cat r1 r2 [] (c :: w)).
           ++ apply nullable_lang; assumption.
           ++ apply IH2; assumption.
      * apply lang_cat_inv in H as (u & v & Eq & Hu & Hv).
        destruct u as [| a u']; simpl in Eq.
        -- subst v. apply lang_alt_r, IH2. assumption.
        -- injection Eq as <- ->. apply lang_alt_l.
           constructor; [apply IH1 |]; assumption.
    + split; intros H.
      * apply lang_cat_inv in H as (u & v & -> & Hu & Hv).
        apply lang_cat_cons; [apply IH1 |]; assumption.
      * apply lang_cat_inv in H as (u & v & Eq & Hu & Hv).
        destruct u as [| a u']; simpl in Eq.
        -- apply nullable_lang in Hu. congruence.
        -- injection Eq as <- ->.
           constructor; [apply IH1 |]; assumption.
  - split; intros H; apply lang_alt_inv in H as [H | H].
    + apply lang_alt_l, IH1; assumption.
    + apply lang_alt_r, IH2; assumption.
    + apply lang_alt_l, IH1; assumption.
    + apply lang_alt_r, IH2; assumption.
  - split; intros H.
    + apply lang_cat_inv in H as (u & v & -> & Hu & Hv).
      apply (lang_star_app r (c :: u) v); [apply IH |]; assumption.
    + apply lang_star_cons_inv in H as (u & v & -> & Hu & Hv).
      constructor; [apply IH |]; assumption.
Qed.

Lemma matches_lang (r : re) (w : word) : matches r w = true <-> lang r w.
Proof.
  revert r. induction w as [| c w IH]; intros r; simpl.
  - apply nullable_lang.
  - rewrite IH. apply deriv_lang.
Qed.

Lemma match_prefix_spec (r : re) (w : word) :
  match_prefix r w = true <-> exists u v, w = u ++ v /\ lang r u.
Proof.
  revert r. induction w as [| c w IH]; intros r; simpl.
  - rewrite orb_false_r. split.
    + intros H. exists [], []. split; [reflexivity |].
      apply nullable_lang; assumption.
    + intros (u & v & Eq & H). destruct u; [| discriminate].
      apply nullable_lang; assumption.
  - split.
    + intros H. apply orb_true_iff in H as [H | H].
      * exists [], (c :: w). split; [reflexivity |].
        apply nullable_lang; assumption.
      * apply IH in H as (u & v & -> & H).
        exists (c :: u), v. split; [reflexivity | apply deriv_lang; assumption].
    + intros (u & v & Eq & H). apply orb_true_iff.
      destruct u as [| a u'].
      * left. apply nullable_lang; assumption.
      * simpl in Eq. injection Eq as <- ->. right. apply IH.
        exists u', v. split; [reflexivity | apply deriv_lang; assumption].
Qed.

Lemma search_spec (r : re) (w : word) :
  search r w = true <-> exists a u b, w = a ++ u ++ b /\ lang r u.
Proof.
  induction w as [| c w IH]; cbn [search].
  - rewrite orb_false_r. split.
    + intros H. apply match_prefix_spec in H as (u & v & Eq & H).
      exists [], u, v. auto.
    + intros (a & u & b & Eq & H). destruct a; [| discriminate].
      apply match_prefix_spec. exists u, b. auto.
  - split.
    + intros H. apply orb_true_iff in H as [H | H].
      * apply match_prefix_spec in H as (u & v & Eq & H).
        exists [], u, v. auto.
      * apply IH in H as (a & u & b & -> & H).
        exists (c :: a), u, b. auto.
    + intros (a & u & b & Eq & H). apply orb_true_iff.
      destruct a as [| x a'].
      * left. apply match_prefix_spec. exists u, b. auto.
      * simpl in Eq. injection Eq as <- ->. right. apply IH.
        exists a', u, b. auto.
Qed.

Lemma matches_search (r : re) (a u b : word) :
  matches r u = true -> search r (a ++ u ++ b) = true.
Proof.
  intros H. apply search_spec. exists a, u, b.
  split; [reflexivity | apply matches_lang; auto].
Qed.

End RegexFacts.

(** ** Strings and the two readings of the pattern *)

Section PatternFacts.
Import Py Motor Collections Samples.

Context {U : Regex.Unicode}.

(** The field constraint holds exactly when some run of characters of
    the value is an identifier. *)
Lemma pattern_ok_spec (value : string) :
  pattern_ok concord_pattern value = true <->
  exists a u b,
    Regex.code_points value = a ++ u ++ b /\ Regex.lang concord_pattern u.
Proof. apply search_spec. Qed.

(** Whatever the anchored reading accepts, the field constraint accepts,
    and it keeps accepting it with anything written before or after. *)
Lemma anchored_ok_embedded (before after : Regex.word) (value inner : string) :
  Regex.code_points value = before ++ Regex.code_points inner ++ after ->
  anchored_ok inner = true ->
  pattern_ok concord_pattern value = true.
Proof.
  intros Eq H. unfold pattern_ok. rewrite Eq. apply matches_search. exact H.
Qed.

Lemma anchored_ok_pattern_ok (value : string) :
  anchored_ok value = true -> pattern_ok concord_pattern value = true.
Proof.
  intros H. apply (anchored_ok_embedded [] [] value value); [| exact H].
  rewrite app_nil_r. reflexivity.
Qed.

End PatternFacts.

(** ** Running the store operations *)

Section StoreFacts.
Import Py Motor Collections Samples.
Local Open Scope py_scope.

Lemma round_trip_up (w : World) :
  store_up w -> round_trip w = (Ret tt, after_round_trip w).
Proof.
  unfold store_up, round_trip, after_round_trip.
  destruct (faults w) as [| [e |] fs]; intros H; [reflexivity | destruct H | reflexivity].
Qed.

Lemma round_trip_down (w : World) (e : exn) (fs : list (option exn)) :
  faults w = Some e :: fs -> round_trip w = (Raise e, set_faults fs w).
Proof. unfold round_trip. intros ->. reflexivity. Qed.

(** A round trip touches nothing but [faults]. *)
Lemma round_trip_frame (w : World) :
  let w' := snd (round_trip w) in
  docs w' = docs w /\ next_id w' = next_id w /\ clock w' = clock w /\
  stdout w' = stdout w.
Proof.
  unfold round_trip. destruct (faults w) as [| [e |] fs]; simpl; auto.
Qed.

Lemma after_round_trip_frame (w : World) :
  docs (after_round_trip w) = docs w /\
  next_id (after_round_trip w) = next_id w /\
  clock (after_round_trip w) = clock w /\
  stdout (after_round_trip w) = stdout w.
Proof.
  unfold after_round_trip. destruct (faults w); simpl; auto.
Qed.

Lemma same_except_status_refl (d : ComponentRequest) : same_except_status d d.
Proof. unfold same_except_status. repeat split. Qed.

Lemma same_except_status_set (s : Status) (d : ComponentRequest) :
  same_except_status d (set_status s d).
Proof. unfold same_except_status. repeat split. Qed.

Lemma Forall2_same_except_status_refl (ds : list ComponentRequest) :
  Forall2 same_except_status ds ds.
Proof.
  induction ds; constructor; auto using same_except_status_refl.
Qed.

(** The document [get] hands back is the one [save] then replaces. *)
Lemma replace_one_found (i : ObjectId) (s : Status)
    (ds : list ComponentRequest) (d : ComponentRequest) :
  List.find (has_id i) ds = Some d ->
  exists ds',
    replace_one (set_status s d) ds = Some ds' /\
    Forall2 same_except_status ds ds' /\
    List.find (has_id i) ds' = Some (set_status s d).
Proof.
  induction ds as [| d0 ds IH]; simpl; [discriminate |].
  destruct (has_id i d0) eqn:H0.
  - intros [= ->]. unfold same_id at 1. simpl.
    unfold has_id in H0. destruct (id d) as [j |] eqn:Hj; [| discriminate].
    apply N.eqb_eq in H0 as ->.
    unfold has_id at 1. rewrite Hj, N.eqb_refl.
    eexists; split; [reflexivity |]. split.
    + constructor; [apply same_except_status_set |].
      apply Forall2_same_except_status_refl.
    + simpl. unfold has_id at 1. simpl. rewrite Hj, N.eqb_refl. reflexivity.
  - intros Hfind. destruct (IH Hfind) as (ds' & Hr & Hall & Hf).
    assert (Hne : same_id (set_status s d) d0 = false).
    { unfold same_id. simpl.
      apply find_some in Hfind as [_ Hd]. unfold has_id in Hd.
      destruct (id d) as [j |]; [| discriminate].
      apply N.eqb_eq in Hd as <-. exact H0. }
    rewrite Hne, Hr. eexists; split; [reflexivity |]. split.
    + constructor; [apply same_except_status_refl | exact Hall].
    + simpl. rewrite H0. exact Hf.
Qed.

End StoreFacts.

Section UpdateFacts.
Import Py Motor Collections Samples.
Local Open Scope py_scope.

Lemma save_frame (s : Status) (i : ObjectId) (d : ComponentRequest) (w : World) :
  List.find (has_id i) (docs w) = Some d ->
  Forall2 same_except_status (docs w) (docs (snd (save (set_status s d) w))).
Proof.
  intros Hf. destruct (replace_one_found i s _ _ Hf) as (ds' & Hr & Hall & _).
  unfold save, bind, modify, round_trip.
  destruct (faults w) as [| [e |] fs]; simpl; rewrite ?Hr; simpl; try exact Hall.
  apply Forall2_same_except_status_refl.
Qed.

Lemma get_result (i : ObjectId) (w : World) :
  forall o w', get i w = (Ret o, w') ->
  o = List.find (has_id i) (docs w) /\ docs w' = docs w.
Proof.
  intros o w'. unfold get, bind, gets, round_trip.
  destruct (faults w) as [| [e |] fs]; simpl; intros [= <- <-]; auto.
Qed.

Lemma get_raises_frame (i : ObjectId) (w : World) (e : exn) (w' : World) :
  get i w = (Raise e, w') -> docs w' = docs w.
Proof.
  unfold get, bind, gets, round_trip.
  destruct (faults w) as [| [e' |] fs]; simpl; intros [= <- <-]; auto.
Qed.

(** C6. [update_request] changes nothing but [status]: whatever the
    store does, the collection afterwards has the same documents in the
    same order, each with the identifier, requester, request date, request
    type, librarian, project, task, Concord id and folder, manufacturer,
    part number, link, solution, footprint id and footprint name it had
    before. *)
Theorem update_request_frame
    (w : World) (request_id : ObjectId) (new_status : Status) :
  Forall2 same_except_status
    (docs w) (docs (snd (update_request request_id new_status w))).
Proof.
  unfold update_request, bind.
  destruct (get request_id w) as [[o | e] w1] eqn:Hg.
  - apply get_result in Hg as [-> Hd].
    destruct (List.find (has_id request_id) (docs w)) as [d |] eqn:Hf.
    + rewrite <- Hd in Hf |- *.
      pose proof (save_frame new_status _ _ _ Hf) as Hs.
      unfold try_except, bind, ret.
      destruct (save (set_status new_status d) w1) as [[[] | e] w2];
        simpl in Hs |- *; [exact Hs |].
      destruct e; simpl; exact Hs.
    + simpl. rewrite Hd. apply Forall2_same_except_status_refl.
  - simpl. rewrite (get_raises_frame _ _ _ _ Hg).
    apply Forall2_same_except_status_refl.
Qed.

(** When the store is up, the status of the document found is the new
    one afterwards, and the method still answers [False]. *)
Lemma update_request_found
    (w : World) (request_id : ObjectId) (new_status : Status)
    (d : ComponentRequest) :
  store_up w -> store_up (after_round_trip w) ->
  List.find (has_id request_id) (docs w) = Some d ->
  exists w',
    update_request request_id new_status w = (Ret false, w') /\
    List.find (has_id request_id) (docs w') = Some (set_status new_status d).
Proof.
  intros Hup1 Hup2 Hf.
  destruct (after_round_trip_frame w) as (Hd1 & _).
  destruct (replace_one_found request_id new_status _ _ Hf) as (ds' & Hr & _ & Hf').
  unfold update_request, get, bind, gets.
  rewrite (round_trip_up _ Hup1). rewrite Hd1, Hf.
  unfold try_except, save, bind, modify, ret.
  rewrite (round_trip_up _ Hup2).
  destruct (after_round_trip_frame (after_round_trip w)) as (Hd2 & _).
  rewrite Hd2, Hd1, Hr. eexists; split; [reflexivity |]. exact Hf'.
Qed.


(** [update_request] has no handler for a connection failure: one raised
    by [save] leaves the method as it is, with nothing printed. *)
Lemma update_request_connection_failure
    (w : World) (request_id : ObjectId) (new_status : Status)
    (d : ComponentRequest) (msg : string) (fs : list (option exn)) :
  faults w = None :: Some (ConnectionFailure msg) :: fs ->
  List.find (has_id request_id) (docs w) = Some d ->
  update_request request_id new_status w =
    (Raise (ConnectionFailure msg), set_faults fs w).
Proof.
  intros Hfs Hf. destruct w as [env drv ds nid clk fl out].
  simpl in Hfs, Hf. subst fl.
  unfold update_request, get, save, bind, gets, try_except, round_trip.
  simpl. rewrite Hf. reflexivity.
Qed.

(** An identifier that is not in the collection: [False], and the
    collection is left as it was. *)
Lemma update_request_missing
    (w : World) (request_id : ObjectId) (new_status : Status) :
  store_up w ->
  List.find (has_id request_id) (docs w) = None ->
  update_request request_id new_status w = (Ret false, after_round_trip w).
Proof.
  intros Hup Hf. destruct (after_round_trip_frame w) as (Hd & _).
  unfold update_request, get, bind, gets.
  rewrite (round_trip_up _ Hup). rewrite Hd, Hf. reflexivity.
Qed.

(** A validation error raised by [save] is caught and answered with
    [False]. *)
Lemma update_request_validation_error
    (w : World) (request_id : ObjectId) (new_status : Status)
    (d : ComponentRequest) (fields : list string) (fs : list (option exn)) :
  faults w = None :: Some (ValidationError fields) :: fs ->
  List.find (has_id request_id) (docs w) = Some d ->
  update_request request_id new_status w = (Ret false, set_faults fs w).
Proof.
  intros Hfs Hf. destruct w as [env drv ds nid clk fl out].
  simpl in Hfs, Hf. subst fl.
  unfold update_request, get, save, bind, gets, try_except, round_trip.
  simpl. rewrite Hf. reflexivity.
Qed.

End UpdateFacts.

Section DeleteFacts.
Import Py Motor Collections Samples.
Local Open Scope py_scope.


(** With the store up, the document found is removed, and the answer is
    [False] all the same. *)
Lemma delete_request_found
    (w : World) (request_id : ObjectId) (d : ComponentRequest) :
  store_up w -> store_up (after_round_trip w) ->
  List.find (has_id request_id) (docs w) = Some d ->
  delete_request request_id w =
    (Ret false,
     set_docs (delete_one d (docs w)) (after_round_trip (after_round_trip w))).
Proof.
  intros Hup1 Hup2 Hf.
  destruct (after_round_trip_frame w) as (Hd1 & _).
  destruct (after_round_trip_frame (after_round_trip w)) as (Hd2 & _).
  unfold delete_request, get, bind, gets.
  rewrite (round_trip_up _ Hup1). rewrite Hd1, Hf.
  unfold try_except, delete, bind, modify, ret.
  rewrite (round_trip_up _ Hup2). rewrite Hd2, Hd1. reflexivity.
Qed.

(** A connection failure raised by the removal itself is caught: its cause
    is printed and the answer is [False]. *)
Lemma delete_request_connection_failure_caught
    (w : World) (request_id : ObjectId) (d : ComponentRequest)
    (msg : string) (fs : list (option exn)) :
  faults w = None :: Some (ConnectionFailure msg) :: fs ->
  List.find (has_id request_id) (docs w) = Some d ->
  delete_request request_id w =
    (Ret false,
     set_stdout
       (stdout w ++
        ["Database error occurred while deleting the request: " +:+ msg])
       (set_faults fs w)).
Proof.
  intros Hfs Hf. destruct w as [env drv ds nid clk fl out].
  simpl in Hfs, Hf. subst fl.
  unfold delete_request, get, delete, bind, gets, try_except, round_trip.
  simpl. rewrite Hf. reflexivity.
Qed.

(** One raised by the look-up is not: [get] stands outside the [try]. *)
Lemma delete_request_lookup_failure
    (w : World) (request_id : ObjectId) (e : exn) (fs : list (option exn)) :
  faults w = Some e :: fs ->
  delete_request request_id w = (Raise e, set_faults fs w).
Proof.
  intros Hfs. unfold delete_request, get, bind.
  rewrite (round_trip_down _ _ _ Hfs). reflexivity.
Qed.

(** An identifier that is not in the collection: [False], and the
    collection is left as it was. *)
Lemma delete_request_missing (w : World) (request_id : ObjectId) :
  store_up w ->
  List.find (has_id request_id) (docs w) = None ->
  delete_request request_id w = (Ret false, after_round_trip w).
Proof.
  intros Hup Hf. destruct (after_round_trip_frame w) as (Hd & _).
  unfold delete_request, get, bind, gets.
  rewrite (round_trip_up _ Hup). rewrite Hd, Hf. reflexivity.
Qed.

(** Removing the document found takes exactly one document out of the
    collection and brings none in. *)
Lemma delete_one_gone
    (i : ObjectId) (ds : list ComponentRequest) (d : ComponentRequest) :
  List.find (has_id i) ds = Some d ->
  (forall d', In d' (delete_one d ds) -> In d' ds) /\
  length (delete_one d ds) + 1 = length ds.
Proof.
  induction ds as [| d0 ds IH]; simpl; [discriminate |].
  destruct (has_id i d0) eqn:H0.
  - intros [= ->]. unfold same_id. unfold has_id in H0.
    destruct (id d) as [j |] eqn:Hj; [| discriminate].
    unfold has_id. rewrite Hj, N.eqb_refl.
    split; [auto | lia].
  - intros Hf. destruct (IH Hf) as [Hin Hlen].
    assert (Hne : same_id d d0 = false).
    { unfold same_id. apply find_some in Hf as [_ Hd]. unfold has_id in Hd.
      destruct (id d) as [j |]; [| discriminate].
      apply N.eqb_eq in Hd as <-. exact H0. }
    rewrite Hne. simpl. split; [| lia].
    intros d' [-> | H]; auto.
Qed.

End DeleteFacts.

Section Evaluations.
Import Py Motor Collections Samples.

(** C1. On the stored identifier 0 and the status [QC], with the store
    up, [update_request] saves the new status and answers [False], where a
    successful update is to answer [True]. *)
Theorem update_request_existing_answers_false :
  update_request 0%N QC one_request =
    (Ret false, set_docs [set_status QC (canonical 0%N 1000%Z)] one_request).
Proof. reflexivity. Qed.

(** C2. On the stored identifier 0, with the store up, [delete_request]
    removes the document and answers [False], where removing an existing
    document is to answer [True]. *)
Theorem delete_request_existing_answers_false :
  delete_request 0%N one_request = (Ret false, set_docs [] one_request).
Proof. reflexivity. Qed.

(** C7. A connection failure raised by the store while [update_request]
    saves is not caught: the method raises it to the caller, and nothing
    is printed. *)
Theorem update_request_reraises_connection_failure :
  update_request 0%N QC
    (set_faults [None; Some (ConnectionFailure "connection refused")] one_request)
  = (Raise (ConnectionFailure "connection refused"), one_request).
Proof. reflexivity. Qed.

End Evaluations.

Section CreateFacts.
Import Py Motor Collections Samples.
Local Open Scope py_scope.

Context {U : Regex.Unicode}.

Lemma new_ComponentRequest_valid
    (requester : string) (status : Status) (request_type : RequestType)
    (librarian : Librarian) (project task : string)
    (concord_id : option string) (concord_folder : string)
    (manufacturer part_number manufacturer_link : option string)
    (solution : Solution) (concord_footprint_id footprint_name : option string)
    (w : World) :
  optional_pattern_ok concord_pattern concord_id = true ->
  optional_pattern_ok concord_pattern concord_footprint_id = true ->
  new_ComponentRequest requester status request_type librarian project task
    concord_id concord_folder manufacturer part_number manufacturer_link
    solution concord_footprint_id footprint_name w
  = (Ret {| id := None; requester := requester; request_date := clock w;
            status := status; request_type := request_type;
            librarian := librarian; project := project; task := task;
            concord_id := concord_id; concord_folder := concord_folder;
            manufacturer := manufacturer; part_number := part_number;
            manufacturer_link := manufacturer_link; solution := solution;
            concord_footprint_id := concord_footprint_id;
            footprint_name := footprint_name |}, w).
Proof.
  intros H1 H2. unfold new_ComponentRequest, bind, gets, ret.
  rewrite H1, H2. reflexivity.
Qed.

Lemma new_ComponentRequest_invalid
    (requester : string) (status : Status) (request_type : RequestType)
    (librarian : Librarian) (project task : string)
    (concord_id : option string) (concord_folder : string)
    (manufacturer part_number manufacturer_link : option string)
    (solution : Solution) (concord_footprint_id footprint_name : option string)
    (w : World) :
  optional_pattern_ok concord_pattern concord_id = false \/
  optional_pattern_ok concord_pattern concord_footprint_id = false ->
  exists fields,
    new_ComponentRequest requester status request_type librarian project task
      concord_id concord_folder manufacturer part_number manufacturer_link
      solution concord_footprint_id footprint_name w
    = (Raise (ValidationError fields), w).
Proof.
  intros H. unfold new_ComponentRequest, bind, gets, raise.
  destruct (optional_pattern_ok concord_pattern concord_id) eqn:H1;
    destruct (optional_pattern_ok concord_pattern concord_footprint_id) eqn:H2.
  - destruct H; discriminate.
  - destruct concord_footprint_id; [| discriminate H2]. simpl. eauto.
  - destruct concord_id; [| discriminate H1]. simpl. eauto.
  - destruct concord_id; [| discriminate H1]. simpl. eauto.
Qed.

Lemma insert_up (r : ComponentRequest) (w : World) :
  store_up w ->
  insert r w =
    (Ret (set_id (next_id w) r),
     set_next_id (next_id w + 1)%N
       (set_docs (docs w ++ [set_id (next_id w) r]) (after_round_trip w))).
Proof.
  intros Hup. unfold insert, bind, gets, modify, ret.
  rewrite (round_trip_up _ Hup).
  destruct (after_round_trip_frame w) as (-> & -> & _). reflexivity.
Qed.

Lemma canonical_ids_valid :
  optional_pattern_ok concord_pattern (Some "INT-123-456") = true.
Proof. reflexivity. Qed.

(** C4. Without the test flag, and with the store up, [create_request]
    stores one new document in which every argument left at [None] has
    its default: the empty string for requester, project, task and
    Concord folder, [NEW], [COMPONENT_FULL], [RAYMOND_GLOVER] and
    [EXISTING] for the enumerations, and [None] for the Concord id, the
    manufacturer, the part number, the link, the footprint id and the
    footprint name. *)
Theorem create_request_defaults (w : World) (a : kw.t) :
  kw.test a = false ->
  optional_pattern_ok concord_pattern (kw.concord_id a) = true ->
  optional_pattern_ok concord_pattern (kw.concord_footprint_id a) = true ->
  store_up w ->
  exists r w',
    create_request a w = (Ret tt, w') /\
    docs w' = docs w ++ [r] /\
    (kw.requester a = None -> requester r = "") /\
    (kw.project a = None -> project r = "") /\
    (kw.task a = None -> task r = "") /\
    (kw.concord_folder a = None -> concord_folder r = "") /\
    (kw.status a = None -> status r = NEW) /\
    (kw.request_type a = None -> request_type r = COMPONENT_FULL) /\
    (kw.librarian a = None -> librarian r = RAYMOND_GLOVER) /\
    (kw.solution a = None -> solution r = EXISTING) /\
    (kw.concord_id a = None -> concord_id r = None) /\
    (kw.manufacturer a = None -> manufacturer r = None) /\
    (kw.part_number a = None -> part_number r = None) /\
    (kw.manufacturer_link a = None -> manufacturer_link r = None) /\
    (kw.concord_footprint_id a = None -> concord_footprint_id r = None) /\
    (kw.footprint_name a = None -> footprint_name r = None).
Proof.
  intros Ht H1 H2 Hup. unfold create_request. rewrite Ht.
  unfold bind at 1. rewrite (new_ComponentRequest_valid _ _ _ _ _ _ _ _ _ _ _ _ _ _ w H1 H2).
  unfold bind at 1. rewrite (insert_up _ _ Hup). unfold ret.
  eexists; eexists; split; [reflexivity |].
  split; [reflexivity |].
  simpl. repeat split; intros ->; reflexivity.
Qed.

End CreateFacts.

Section CreateFactsSample1.
Import Py Motor Collections Samples.
Local Open Scope py_scope.

Lemma create_request_defaults_witness :
  kw.test kw.none = false /\ store_up empty_world /\
  exists r w',
    create_request kw.none empty_world = (Ret tt, w') /\
    docs w' = docs empty_world ++ [r] /\
    (kw.requester kw.none = None -> requester r = "") /\
    (kw.project kw.none = None -> project r = "") /\
    (kw.task kw.none = None -> task r = "") /\
    (kw.concord_folder kw.none = None -> concord_folder r = "") /\
    (kw.status kw.none = None -> status r = NEW) /\
    (kw.request_type kw.none = None -> request_type r = COMPONENT_FULL) /\
    (kw.librarian kw.none = None -> librarian r = RAYMOND_GLOVER) /\
    (kw.solution kw.none = None -> solution r = EXISTING) /\
    (kw.concord_id kw.none = None -> concord_id r = None) /\
    (kw.manufacturer kw.none = None -> manufacturer r = None) /\
    (kw.part_number kw.none = None -> part_number r = None) /\
    (kw.manufacturer_link kw.none = None -> manufacturer_link r = None) /\
    (kw.concord_footprint_id kw.none = None -> concord_footprint_id r = None) /\
    (kw.footprint_name kw.none = None -> footprint_name r = None).
Proof.
  split; [reflexivity |]. split; [exact I |].
  apply (create_request_defaults empty_world kw.none);
    [reflexivity | reflexivity | reflexivity | exact I].
Defined.

End CreateFactsSample1.

Section CreateFacts1.
Import Py Motor Collections Samples.
Local Open Scope py_scope.

Context {U : Regex.Unicode}.

(** C5. With the test flag set the other arguments do not matter: two
    calls that both set it do the same to the same world, and with the
    store up what is stored is the one canonical record. *)
Theorem create_request_test_ignores_fields (w : World) (a b : kw.t) :
  kw.test a = true ->
  kw.test b = true ->
  create_request a w = create_request b w /\
  (store_up w ->
   exists w',
     create_request a w = (Ret tt, w') /\
     docs w' = docs w ++ [canonical (next_id w) (clock w)]).
Proof.
  intros Ha Hb. unfold create_request. rewrite Ha, Hb.
  split; [reflexivity |]. intros Hup.
  unfold bind at 1.
  rewrite (new_ComponentRequest_valid _ _ _ _ _ _ _ _ _ _ _ _ _ _ w
             canonical_ids_valid canonical_ids_valid).
  unfold bind at 1. rewrite (insert_up _ _ Hup). unfold ret.
  eexists; split; [reflexivity |].
  reflexivity.
Qed.

End CreateFacts1.

Section CreateFactsSample2.
Import Py Motor Collections Samples.
Local Open Scope py_scope.

Lemma create_request_test_ignores_fields_witness :
  kw.test (kw_concord None None true) = true /\
  kw.test (kw_concord (Some "not an id") (Some "ABC-1-2") true) = true /\
  create_request (kw_concord None None true) empty_world =
  create_request (kw_concord (Some "not an id") (Some "ABC-1-2") true) empty_world /\
  (store_up empty_world ->
   exists w',
     create_request (kw_concord None None true) empty_world = (Ret tt, w') /\
     docs w' =
       docs empty_world ++ [canonical (next_id empty_world) (clock empty_world)]).
Proof.
  split; [reflexivity |]. split; [reflexivity |].
  apply (create_request_test_ignores_fields empty_world
           (kw_concord None None true)
           (kw_concord (Some "not an id") (Some "ABC-1-2") true));
    reflexivity.
Defined.

End CreateFactsSample2.

Section CreateFacts2.
Import Py Motor Collections Samples.
Local Open Scope py_scope.

Context {U : Regex.Unicode}.

(** Without the test flag, a Concord id or a footprint id in which no
    run of characters has the shape letters, separator, digits,
    separator, digits makes [create_request] raise a validation error
    before the store is touched: the world is left as it was. *)
Theorem create_request_rejects_unmatched
    (w : World) (a : kw.t) (value : string) :
  kw.test a = false ->
  kw.concord_id a = Some value \/ kw.concord_footprint_id a = Some value ->
  pattern_ok concord_pattern value = false ->
  exists fields, create_request a w = (Raise (ValidationError fields), w).
Proof.
  intros Ht Hv Hp. unfold create_request. rewrite Ht. unfold bind.
  edestruct new_ComponentRequest_invalid as (fields & ->).
  - destruct Hv as [-> | ->]; [left | right]; exact Hp.
  - exists fields. reflexivity.
Qed.

End CreateFacts2.

Section CreateFactsSample3.
Import Py Motor Collections Samples.
Local Open Scope py_scope.

Lemma create_request_rejects_unmatched_witness :
  kw.test (kw_concord (Some "hello") None false) = false /\
  pattern_ok concord_pattern "hello" = false /\
  exists fields,
    create_request (kw_concord (Some "hello") None false) one_request
    = (Raise (ValidationError fields), one_request).
Proof.
  split; [reflexivity |]. split; [reflexivity |].
  apply (create_request_rejects_unmatched one_request
           (kw_concord (Some "hello") None false) "hello");
    [reflexivity | left; reflexivity | reflexivity].
Defined.

End CreateFactsSample3.

Section CreateFactsSample4.
Import Py Motor Collections Samples.
Local Open Scope py_scope.

(** With the test flag set the Concord ids given in the call are not
    looked at: the canonical record is stored whatever their shape. *)
Lemma create_request_test_flag_skips_validation :
  pattern_ok concord_pattern "bad" = false /\
  create_request (kw_concord (Some "bad") (Some "bad") true) empty_world
  = (Ret tt, set_next_id 1%N (set_docs [canonical 0%N 1000%Z] empty_world)).
Proof. split; reflexivity. Qed.

(** A Concord id written with the decimal digits of another script is
    an identifier like any other. *)
Lemma create_request_stores_other_digits :
  anchored_ok "INT-١٢٣-٤٥٦" = true /\
  exists r,
    create_request (kw_concord (Some "INT-١٢٣-٤٥٦") None false) empty_world
    = (Ret tt, set_next_id 1%N (set_docs [r] empty_world)) /\
    concord_id r = Some "INT-١٢٣-٤٥٦".
Proof. split; [reflexivity |]. eexists. split; reflexivity. Qed.

End CreateFactsSample4.

Section CreateFacts4.
Import Py Motor Collections Samples.
Local Open Scope py_scope.

Context {U : Regex.Unicode}.

(** C3. On a Concord id that is not a whole-value match of the pattern
    [create_request] does not fail: the value is stored. An identifier
    followed by other characters passes as [concord_id], and one with
    seven letters, where the pattern allows six, passes as
    [concord_footprint_id], because the pattern is searched for in the
    value and not anchored to its ends. This holds whatever the engine's
    table of digits. *)
Theorem create_request_stores_unanchored_id :
  (anchored_ok "INT-123-456yy" = false /\
   exists r,
     create_request (kw_concord (Some "INT-123-456yy") None false) empty_world
     = (Ret tt, set_next_id 1%N (set_docs [r] empty_world)) /\
     concord_id r = Some "INT-123-456yy") /\
  (anchored_ok "ABCDEFG-1-2" = false /\
   exists r,
     create_request (kw_concord None (Some "ABCDEFG-1-2") false) empty_world
     = (Ret tt, set_next_id 1%N (set_docs [r] empty_world)) /\
     concord_footprint_id r = Some "ABCDEFG-1-2").
Proof.
  split; (split; [reflexivity |]); eexists; split; reflexivity.
Qed.

(** C9. The pattern of the two Concord fields is searched for, not matched
    against the whole value: ["xxINT-123-456yy"] is not an anchored match,
    and the constructor accepts it for [concord_id] and for
    [concord_footprint_id], whatever the other fields are. *)
Theorem concord_pattern_is_searched :
  exists value : string,
    anchored_ok value = false /\
    forall (requester : string) (status : Status) (request_type : RequestType)
           (librarian : Librarian) (project task concord_folder : string)
           (manufacturer part_number manufacturer_link : option string)
           (solution : Solution) (footprint_name : option string) (w : World),
    exists r,
      new_ComponentRequest requester status request_type librarian project
        task (Some value) concord_folder manufacturer part_number
        manufacturer_link solution (Some value) footprint_name w
      = (Ret r, w) /\
      concord_id r = Some value /\ concord_footprint_id r = Some value.
Proof.
  exists "xxINT-123-456yy". split; [reflexivity |]. intros.
  eexists. split.
  - apply new_ComponentRequest_valid; reflexivity.
  - split; reflexivity.
Qed.

End CreateFacts4.

Section InitFacts.
Import Py Motor Samples.
Local Open Scope py_scope.

(** [get_mongo_uri] in closed form: the assertion can only trip on a
    variable that is set, to the empty string. *)
Lemma get_mongo_uri_cases (verbose : bool) (p : Mongo.Process) :
  Mongo.get_mongo_uri verbose p =
    match getenv (Mongo.environ p) "MONGO_URI" with
    | None => (Ret "op://Dev/Mongo-AppliedLogix/uri", p)
    | Some EmptyString =>
        (Raise (AssertionError "MONGO_URI is not set in environment variables."), p)
    | Some uri => (Ret uri, p)
    end.
Proof.
  unfold Mongo.get_mongo_uri, bind, gets, getenv_default, getenv.
  destruct (Mongo.environ p !! "MONGO_URI") as [[| c uri] |]; reflexivity.
Qed.

Lemma get_client_raises
    (verbose : bool) (p p' : Mongo.Process) (e : exn) :
  Mongo.get_client verbose p = (Raise e, p') ->
  exists cause,
    e = ConnectionError ("Failed to connect to the database: " +:+ str cause).
Proof.
  unfold Mongo.get_client, try_except.
  match goal with |- context [match ?m p with _ => _ end] =>
    destruct (m p) as [[c | cause] p1] end.
  - discriminate.
  - unfold is_Exception, bind, Mongo.console_log, modify, raise.
    intros [= <- _]. exists cause. reflexivity.
Qed.

Lemma get_requests_db_raises
    (verbose : bool) (p p' : Mongo.Process) (e : exn) :
  Mongo.get_requests_db verbose p = (Raise e, p') ->
  exists cause,
    e = ConnectionError ("Failed to connect to the database: " +:+ str cause).
Proof.
  unfold Mongo.get_requests_db. unfold bind at 1.
  destruct (Mongo.get_client Mongo.VERBOSE p) as [[c | e0] p1] eqn:Hc.
  - unfold try_except.
    match goal with |- context [match ?m p1 with _ => _ end] =>
      destruct (m p1) as [[db | cause] p2] end.
    + discriminate.
    + unfold is_Exception, raise. intros [= <- _]. exists cause. reflexivity.
  - intros [= <- _]. exact (get_client_raises _ _ _ _ Hc).
Qed.

(** C10, as the code has it. [init_db] of the mongo module never returns:
    when [get_requests_db()] returns, reading the unbound name [Request]
    raises [NameError]; when [get_requests_db()] raises, its
    [ConnectionError] is what the caller gets, since that argument is
    evaluated first. *)
Theorem mongo_init_db_never_returns (verbose : bool) (p : Mongo.Process) :
  match Mongo.get_requests_db Mongo.VERBOSE p with
  | (Ret _, p') => Mongo.init_db verbose p = (Raise (NameError "Request"), p')
  | (Raise e, p') =>
      Mongo.init_db verbose p = (Raise e, p') /\
      exists cause,
        e = ConnectionError ("Failed to connect to the database: " +:+ str cause)
  end.
Proof.
  unfold Mongo.init_db, Mongo.init_beanie_statement.
  destruct (Mongo.get_requests_db Mongo.VERBOSE p) as [[db | e] p'] eqn:Hdb.
  - unfold bind, Mongo.load_global. simpl. rewrite Hdb. reflexivity.
  - split.
    + unfold bind, Mongo.load_global. simpl. rewrite Hdb. reflexivity.
    + exact (get_requests_db_raises _ _ _ _ Hdb).
Qed.

(** C10, as stated, fails when [MONGO_URI] is set to the empty string:
    the assertion of [get_mongo_uri] trips inside [get_client], which
    turns it into a [ConnectionError], and the name [Request] is never
    read. *)
Lemma mongo_init_db_connection_error :
  fst (Mongo.init_db false (process {[ "MONGO_URI" := "" ]})) =
    Raise (ConnectionError
      "Failed to connect to the database: MONGO_URI is not set in environment variables.")
  /\ fst (Mongo.init_db false (process {[ "MONGO_URI" := "" ]})) <>
     Raise (NameError "Request").
Proof. split; [reflexivity | discriminate]. Qed.

(** With a connection string and a database name the driver takes, the
    call ends in the [NameError]. *)
Lemma mongo_init_db_name_error :
  Mongo.init_db false
    (process (<[ "MONGO_DB" := "requests" ]>
                {[ "MONGO_URI" := "mongodb://localhost:27017" ]}))
  = (Raise (NameError "Request"),
     process (<[ "MONGO_DB" := "requests" ]>
                {[ "MONGO_URI" := "mongodb://localhost:27017" ]})).
Proof. reflexivity. Qed.

(** C8, as the code has it. [ComponentRequest.init_db] does not look at
    whether [MONGO_URI] is set: an absent variable reaches the client
    constructor as [None], and when the driver takes that and the store is
    up the database is returned. *)
Theorem init_db_does_not_check_uri
    (w : Collections.World) (c : Client) (db : Database) :
  getenv (Collections.environ w) "MONGO_URI" = None ->
  AsyncIOMotorClient (Collections.motor w) None = Ret c ->
  get_database (Collections.motor w) c
    (getenv_default (Collections.environ w) "MONGO_DB" "requests") = Ret db ->
  store_up w ->
  Collections.init_db w = (Ret db, after_round_trip w).
Proof.
  intros Huri Hc Hdb Hup.
  unfold Collections.init_db, Collections.init_beanie, bind, gets, lift, ret.
  rewrite Huri, Hc, Hdb, (round_trip_up _ Hup). reflexivity.
Qed.

Lemma init_db_does_not_check_uri_witness :
  getenv (Collections.environ empty_world) "MONGO_URI" = None /\
  store_up empty_world /\
  Collections.init_db empty_world =
    (Ret {| db_client := {| client_host := None |}; db_name := "requests" |},
     after_round_trip empty_world).
Proof.
  split; [reflexivity |]. split; [exact I |].
  apply (init_db_does_not_check_uri empty_world
           {| client_host := None |}
           {| db_client := {| client_host := None |}; db_name := "requests" |});
    [reflexivity | reflexivity | reflexivity | exact I].
Defined.

(** C8, as stated, fails: with [MONGO_URI] absent, [get_mongo_uri] returns
    a stand-in value and [ComponentRequest.init_db] returns a database. *)
Lemma absent_uri_is_not_fatal :
  getenv (∅ : gmap string string) "MONGO_URI" = None /\
  Mongo.get_mongo_uri false (process ∅) =
    (Ret "op://Dev/Mongo-AppliedLogix/uri", process ∅) /\
  Collections.init_db empty_world =
    (Ret {| db_client := {| client_host := None |}; db_name := "requests" |},
     empty_world).
Proof. repeat split. Qed.

End InitFacts.

(** ** Look-ups around a replaced or removed document *)

Section KeyFacts.
Import Py Motor Collections Samples.
Local Open Scope py_scope.

Lemma has_id_other (i j : ObjectId) (d : ComponentRequest) :
  j <> i -> has_id i d = true -> has_id j d = false.
Proof.
  unfold has_id. destruct (id d) as [k |]; [| discriminate].
  intros Hne Hi. apply N.eqb_eq in Hi as <-. apply N.eqb_neq. exact Hne.
Qed.

Lemma same_id_has_id (r : ComponentRequest) (i : ObjectId) :
  id r = Some i -> forall d, same_id r d = has_id i d.
Proof. intros Hr d. unfold same_id. rewrite Hr. reflexivity. Qed.

Lemma find_has_id_key (i : ObjectId) (ds : list ComponentRequest)
    (d : ComponentRequest) :
  List.find (has_id i) ds = Some d -> id d = Some i.
Proof.
  intros Hf. apply find_some in Hf as [_ Hd]. unfold has_id in Hd.
  destruct (id d) as [k |]; [| discriminate].
  apply N.eqb_eq in Hd as ->. reflexivity.
Qed.

Lemma replace_one_find_other
    (r : ComponentRequest) (i j : ObjectId) (ds ds' : list ComponentRequest) :
  id r = Some i -> j <> i ->
  replace_one r ds = Some ds' ->
  List.find (has_id j) ds' = List.find (has_id j) ds.
Proof.
  intros Hr Hne. revert ds'.
  induction ds as [| d0 ds IH]; simpl; intros ds'; [discriminate |].
  rewrite (same_id_has_id _ _ Hr). destruct (has_id i d0) eqn:H0.
  - intros [= <-]. simpl.
    rewrite (has_id_other i j d0 Hne H0).
    assert (Hjr : has_id j r = false).
    { unfold has_id. rewrite Hr. apply N.eqb_neq. exact Hne. }
    rewrite Hjr. reflexivity.
  - destruct (replace_one r ds) as [ds'' |]; [| discriminate].
    intros [= <-]. simpl. rewrite (IH ds'' eq_refl). reflexivity.
Qed.

Lemma delete_one_find_other
    (r : ComponentRequest) (i j : ObjectId) (ds : list ComponentRequest) :
  id r = Some i -> j <> i ->
  List.find (has_id j) (delete_one r ds) = List.find (has_id j) ds.
Proof.
  intros Hr Hne. induction ds as [| d0 ds IH]; simpl; [reflexivity |].
  rewrite (same_id_has_id _ _ Hr). destruct (has_id i d0) eqn:H0.
  - rewrite (has_id_other i j d0 Hne H0). reflexivity.
  - simpl. rewrite IH. reflexivity.
Qed.

Lemma find_absent_key (i : ObjectId) (ds : list ComponentRequest) :
  ~ In (Some i) (List.map id ds) -> List.find (has_id i) ds = None.
Proof.
  induction ds as [| d0 ds IH]; simpl; [reflexivity |].
  intros Hnot. destruct (has_id i d0) eqn:H0.
  - exfalso. apply Hnot. left. unfold has_id in H0.
    destruct (id d0) as [k |]; [| discriminate].
    apply N.eqb_eq in H0 as ->. reflexivity.
  - apply IH. intros Hin. apply Hnot. right. exact Hin.
Qed.

Lemma delete_one_find_same
    (i : ObjectId) (ds : list ComponentRequest) (d : ComponentRequest) :
  List.NoDup (List.map id ds) ->
  List.find (has_id i) ds = Some d ->
  List.find (has_id i) (delete_one d ds) = None.
Proof.
  induction ds as [| d0 ds IH]; simpl; [discriminate |].
  intros Hnd. apply NoDup_cons_iff in Hnd as [Hnot Hnd].
  destruct (has_id i d0) eqn:H0.
  - intros [= ->].
    assert (Hk : id d = Some i).
    { unfold has_id in H0. destruct (id d) as [k |]; [| discriminate].
      apply N.eqb_eq in H0 as ->. reflexivity. }
    rewrite (same_id_has_id _ _ Hk), H0.
    apply find_absent_key. rewrite <- Hk. exact Hnot.
  - intros Hf.
    rewrite (same_id_has_id _ _ (find_has_id_key _ _ _ Hf)), H0.
    simpl. rewrite H0. apply IH; assumption.
Qed.





End KeyFacts.

(** ** What [update_request] does, case by case *)

Section UpdateCases.
Import Py Motor Collections Samples.
Local Open Scope py_scope.

(** With the store up and the identifier stored, [update_request] leaves
    that document with the new status, leaves every other identifier's
    document as it was, prints nothing, and answers [False]. *)
Theorem update_request_sets_status
    (w : World) (request_id : ObjectId) (new_status : Status)
    (d : ComponentRequest) :
  store_up w -> store_up (after_round_trip w) ->
  List.find (has_id request_id) (docs w) = Some d ->
  exists w',
    update_request request_id new_status w = (Ret false, w') /\
    List.find (has_id request_id) (docs w') = Some (set_status new_status d) /\
    (forall j, j <> request_id ->
       List.find (has_id j) (docs w') = List.find (has_id j) (docs w)) /\
    length (docs w') = length (docs w) /\
    stdout w' = stdout w.
Proof.
  intros Hup1 Hup2 Hf.
  destruct (after_round_trip_frame w) as (Hd1 & _ & _ & Ho1).
  destruct (after_round_trip_frame (after_round_trip w)) as (Hd2 & _ & _ & Ho2).
  destruct (replace_one_found request_id new_status _ _ Hf)
    as (ds' & Hr & Hall & Hf').
  unfold update_request, get, bind, gets.
  rewrite (round_trip_up _ Hup1). rewrite Hd1, Hf.
  unfold try_except, save, bind, modify, ret.
  rewrite (round_trip_up _ Hup2). rewrite Hd2, Hd1, Hr.
  eexists; split; [reflexivity |]. simpl.
  split; [exact Hf' |]. split; [| split].
  - intros j Hj.
    apply (replace_one_find_other (set_status new_status d) request_id j
             (docs w) ds'); [| exact Hj | exact Hr].
    simpl. exact (find_has_id_key _ _ _ Hf).
  - symmetry. eapply Forall2_length. exact Hall.
  - rewrite Ho2, Ho1. reflexivity.
Qed.

Lemma update_request_sets_status_witness :
  store_up two_requests /\
  List.find (has_id 1%N) (docs two_requests)
    = Some (set_status QC (canonical 1%N 1500%Z)) /\
  exists w',
    update_request 1%N COMPLETE two_requests = (Ret false, w') /\
    List.find (has_id 1%N) (docs w')
      = Some (set_status COMPLETE (set_status QC (canonical 1%N 1500%Z))) /\
    (forall j, j <> 1%N ->
       List.find (has_id j) (docs w') = List.find (has_id j) (docs two_requests)) /\
    length (docs w') = length (docs two_requests) /\
    stdout w' = stdout two_requests.
Proof.
  split; [exact I |]. split; [reflexivity |].
  apply (update_request_sets_status two_requests 1%N COMPLETE
           (set_status QC (canonical 1%N 1500%Z)));
    [exact I | exact I | reflexivity].
Defined.

(** The text of a key under which nothing is stored: [False], with the
    collection and the output untouched. *)
Theorem update_request_unknown_identifier
    (w : World) (request_id : ObjectId) (new_status : Status) :
  store_up w ->
  List.find (has_id request_id) (docs w) = None ->
  exists w',
    update_request request_id new_status w = (Ret false, w') /\
    docs w' = docs w /\ stdout w' = stdout w.
Proof.
  intros Hup Hf.
  destruct (after_round_trip_frame w) as (Hd & _ & _ & Ho).
  exists (after_round_trip w). split; [| split; assumption].
  unfold update_request, get, bind, gets.
  rewrite (round_trip_up _ Hup). rewrite Hd, Hf. reflexivity.
Qed.

Lemma update_request_unknown_identifier_witness :
  store_up one_request /\
  List.find (has_id 7%N) (docs one_request) = None /\
  exists w',
    update_request 7%N QC one_request = (Ret false, w') /\
    docs w' = docs one_request /\ stdout w' = stdout one_request.
Proof.
  split; [exact I |]. split; [reflexivity |].
  apply (update_request_unknown_identifier one_request 7%N QC);
    [exact I | reflexivity].
Defined.

(** A validation error raised while saving is swallowed: the answer is
    [False], the stored document keeps its old status, and nothing is
    printed. *)
Theorem update_request_swallows_validation_error
    (w : World) (request_id : ObjectId) (new_status : Status)
    (d : ComponentRequest) (fields : list string) (fs : list (option exn)) :
  faults w = None :: Some (ValidationError fields) :: fs ->
  List.find (has_id request_id) (docs w) = Some d ->
  update_request request_id new_status w = (Ret false, set_faults fs w).
Proof.
  intros Hfs Hf. destruct w as [env drv ds nid clk fl out].
  simpl in Hfs, Hf. subst fl.
  unfold update_request, get, save, bind, gets, try_except, round_trip.
  simpl. rewrite Hf. reflexivity.
Qed.

Lemma update_request_swallows_validation_error_witness :
  update_request 0%N QC
    (set_faults [None; Some (ValidationError ["status"])] one_request)
  = (Ret false,
     set_faults [] (set_faults [None; Some (ValidationError ["status"])] one_request)).
Proof.
  apply (update_request_swallows_validation_error
           (set_faults [None; Some (ValidationError ["status"])] one_request)
           0%N QC (canonical 0%N 1000%Z) ["status"] []);
    reflexivity.
Defined.

(** Any other exception raised while saving reaches the caller as it is,
    with the stored document unchanged. *)
Theorem update_request_save_failure_propagates
    (w : World) (request_id : ObjectId) (new_status : Status)
    (d : ComponentRequest) (e : exn) (fs : list (option exn)) :
  faults w = None :: Some e :: fs ->
  uncaught_by_update e = true ->
  List.find (has_id request_id) (docs w) = Some d ->
  update_request request_id new_status w = (Raise e, set_faults fs w).
Proof.
  intros Hfs He Hf. destruct w as [env drv ds nid clk fl out].
  simpl in Hfs, Hf. subst fl.
  unfold update_request, get, save, bind, gets, try_except, round_trip.
  simpl. rewrite Hf. destruct e; try discriminate He; reflexivity.
Qed.

Lemma update_request_save_failure_propagates_witness :
  update_request 0%N QC
    (set_faults [None; Some (OtherError "duplicate key")] one_request)
  = (Raise (OtherError "duplicate key"),
     set_faults [] (set_faults [None; Some (OtherError "duplicate key")] one_request)).
Proof.
  apply (update_request_save_failure_propagates
           (set_faults [None; Some (OtherError "duplicate key")] one_request)
           0%N QC (canonical 0%N 1000%Z) (OtherError "duplicate key") []);
    reflexivity.
Defined.

(** A text that is the text of no document key never reaches the store:
    both methods raise the validation error of the look-up, with its
    report, and the world is as it was. *)
Theorem malformed_identifier_raises
    (w : World) (text : string) (new_status : Status) :
  update_request (malformed text) new_status w
  = (Raise (ValidationError (id_report (pydantic w) text)), w) /\
  delete_request (malformed text) w
  = (Raise (ValidationError (id_report (pydantic w) text)), w).
Proof. split; reflexivity. Qed.

(** The look-up stands before the [try] in both methods: whatever it
    raises, a validation error included, reaches the caller. *)
Theorem lookup_failure_propagates
    (w : World) (request_id : ObjectId) (new_status : Status)
    (e : exn) (fs : list (option exn)) :
  faults w = Some e :: fs ->
  update_request request_id new_status w = (Raise e, set_faults fs w) /\
  delete_request request_id w = (Raise e, set_faults fs w).
Proof.
  intros Hfs. unfold update_request, delete_request, get, bind.
  rewrite (round_trip_down _ _ _ Hfs). split; reflexivity.
Qed.

Lemma lookup_failure_propagates_witness :
  update_request 0%N QC
    (set_faults [Some (ValidationError ["id"])] one_request)
  = (Raise (ValidationError ["id"]),
     set_faults [] (set_faults [Some (ValidationError ["id"])] one_request)) /\
  delete_request 0%N
    (set_faults [Some (ValidationError ["id"])] one_request)
  = (Raise (ValidationError ["id"]),
     set_faults [] (set_faults [Some (ValidationError ["id"])] one_request)).
Proof.
  apply (lookup_failure_propagates
           (set_faults [Some (ValidationError ["id"])] one_request)
           0%N QC (ValidationError ["id"]) []).
  reflexivity.
Defined.

End UpdateCases.

(** ** What [delete_request] does, case by case *)

Section DeleteCases.
Import Py Motor Collections Samples.
Local Open Scope py_scope.

(** With the store up and keys not shared, deleting a stored identifier
    leaves no document under it, leaves every other identifier's document
    in place, shortens the collection by one, and answers [False]. *)
Theorem delete_request_removes
    (w : World) (request_id : ObjectId) (d : ComponentRequest) :
  List.NoDup (List.map id (docs w)) ->
  store_up w -> store_up (after_round_trip w) ->
  List.find (has_id request_id) (docs w) = Some d ->
  exists w',
    delete_request request_id w = (Ret false, w') /\
    List.find (has_id request_id) (docs w') = None /\
    (forall j, j <> request_id ->
       List.find (has_id j) (docs w') = List.find (has_id j) (docs w)) /\
    length (docs w') + 1 = length (docs w) /\
    stdout w' = stdout w.
Proof.
  intros Hnd Hup1 Hup2 Hf.
  destruct (after_round_trip_frame w) as (Hd1 & _ & _ & Ho1).
  destruct (after_round_trip_frame (after_round_trip w)) as (Hd2 & _ & _ & Ho2).
  rewrite (delete_request_found w request_id d Hup1 Hup2 Hf).
  eexists; split; [reflexivity |]. simpl.
  split; [exact (delete_one_find_same _ _ _ Hnd Hf) |]. split; [| split].
  - intros j Hj.
    exact (delete_one_find_other d request_id j (docs w)
             (find_has_id_key _ _ _ Hf) Hj).
  - exact (proj2 (delete_one_gone _ _ _ Hf)).
  - rewrite Ho2, Ho1. reflexivity.
Qed.

Lemma delete_request_removes_witness :
  List.NoDup (List.map id (docs two_requests)) /\
  exists w',
    delete_request 0%N two_requests = (Ret false, w') /\
    List.find (has_id 0%N) (docs w') = None /\
    (forall j, j <> 0%N ->
       List.find (has_id j) (docs w') = List.find (has_id j) (docs two_requests)) /\
    length (docs w') + 1 = length (docs two_requests) /\
    stdout w' = stdout two_requests.
Proof.
  assert (Hnd : List.NoDup (List.map id (docs two_requests))).
  { simpl. repeat constructor; simpl; intuition discriminate. }
  split; [exact Hnd |].
  apply (delete_request_removes two_requests 0%N (canonical 0%N 1000%Z));
    [exact Hnd | exact I | exact I | reflexivity].
Defined.

(** The text of a key under which nothing is stored: [False], with the
    collection and the output untouched. *)
Theorem delete_request_unknown_identifier
    (w : World) (request_id : ObjectId) :
  store_up w ->
  List.find (has_id request_id) (docs w) = None ->
  exists w',
    delete_request request_id w = (Ret false, w') /\
    docs w' = docs w /\ stdout w' = stdout w.
Proof.
  intros Hup Hf.
  destruct (after_round_trip_frame w) as (Hd & _ & _ & Ho).
  exists (after_round_trip w). split; [| split; assumption].
  exact (delete_request_missing w request_id Hup Hf).
Qed.

Lemma delete_request_unknown_identifier_witness :
  store_up one_request /\
  List.find (has_id 7%N) (docs one_request) = None /\
  exists w',
    delete_request 7%N one_request = (Ret false, w') /\
    docs w' = docs one_request /\ stdout w' = stdout one_request.
Proof.
  split; [exact I |]. split; [reflexivity |].
  apply (delete_request_unknown_identifier one_request 7%N);
    [exact I | reflexivity].
Defined.

(** A validation error or a connection failure raised by the removal is
    caught: [print] is called once, with a text that ends in the text of
    the exception, the document stays, and the answer is [False]. *)
Theorem delete_request_failure_caught
    (w : World) (request_id : ObjectId) (d : ComponentRequest)
    (e : exn) (fs : list (option exn)) :
  faults w = None :: Some e :: fs ->
  uncaught_by_delete e = false ->
  List.find (has_id request_id) (docs w) = Some d ->
  delete_request request_id w =
    (Ret false,
     set_stdout (stdout w ++ [delete_message e]) (set_faults fs w)).
Proof.
  intros Hfs He Hf. destruct w as [env drv ds nid clk fl out].
  simpl in Hfs, Hf. subst fl.
  unfold delete_request, get, delete, bind, gets, try_except, round_trip.
  simpl. rewrite Hf. destruct e; try discriminate He; reflexivity.
Qed.

Lemma delete_request_failure_caught_witness :
  delete_request 0%N
    (set_faults [None; Some (ConnectionFailure "timed out")] one_request)
  = (Ret false,
     set_stdout
       (stdout (set_faults [None; Some (ConnectionFailure "timed out")] one_request)
        ++ [delete_message (ConnectionFailure "timed out")])
       (set_faults []
          (set_faults [None; Some (ConnectionFailure "timed out")] one_request))).
Proof.
  apply (delete_request_failure_caught
           (set_faults [None; Some (ConnectionFailure "timed out")] one_request)
           0%N (canonical 0%N 1000%Z) (ConnectionFailure "timed out") []);
    reflexivity.
Defined.

(** Any other exception raised by the removal reaches the caller as it
    is, with nothing printed and the document still stored. *)
Theorem delete_request_other_failure_propagates
    (w : World) (request_id : ObjectId) (d : ComponentRequest)
    (e : exn) (fs : list (option exn)) :
  faults w = None :: Some e :: fs ->
  uncaught_by_delete e = true ->
  List.find (has_id request_id) (docs w) = Some d ->
  delete_request request_id w = (Raise e, set_faults fs w).
Proof.
  intros Hfs He Hf. destruct w as [env drv ds nid clk fl out].
  simpl in Hfs, Hf. subst fl.
  unfold delete_request, get, delete, bind, gets, try_except, round_trip.
  simpl. rewrite Hf. destruct e; try discriminate He; reflexivity.
Qed.

Lemma delete_request_other_failure_propagates_witness :
  delete_request 0%N
    (set_faults [None; Some (OtherError "not authorized")] one_request)
  = (Raise (OtherError "not authorized"),
     set_faults []
       (set_faults [None; Some (OtherError "not authorized")] one_request)).
Proof.
  apply (delete_request_other_failure_propagates
           (set_faults [None; Some (OtherError "not authorized")] one_request)
           0%N (canonical 0%N 1000%Z) (OtherError "not authorized") []);
    reflexivity.
Defined.

End DeleteCases.

(** ** Creating, then reading back *)

Section CreateCases.
Import Py Motor Collections Samples.
Local Open Scope py_scope.

Context {U : Regex.Unicode}.

Lemma store_up_after_insert (w : World) (ds : list ComponentRequest)
    (n : ObjectId) :
  store_up (after_round_trip w) ->
  store_up (set_next_id n (set_docs ds (after_round_trip w))).
Proof. intros H. exact H. Qed.

(** The document [create_request] builds from its arguments when the
    test flag is off, as stored under key [i] at time [now]. *)
Lemma create_request_run (w : World) (a : kw.t) :
  kw.test a = false ->
  optional_pattern_ok concord_pattern (kw.concord_id a) = true ->
  optional_pattern_ok concord_pattern (kw.concord_footprint_id a) = true ->
  store_up w ->
  create_request a w =
    (Ret tt,
     set_next_id (next_id w + 1)%N
       (set_docs
          (docs w ++
           [{| id := Some (next_id w);
               requester := if_not_None (kw.requester a) "";
               request_date := clock w;
               status := if_not_None (kw.status a) NEW;
               request_type := if_not_None (kw.request_type a) COMPONENT_FULL;
               librarian := if_not_None (kw.librarian a) RAYMOND_GLOVER;
               project := if_not_None (kw.project a) "";
               task := if_not_None (kw.task a) "";
               concord_id := kw.concord_id a;
               concord_folder := if_not_None (kw.concord_folder a) "";
               manufacturer := kw.manufacturer a;
               part_number := kw.part_number a;
               manufacturer_link := kw.manufacturer_link a;
               solution := if_not_None (kw.solution a) EXISTING;
               concord_footprint_id := kw.concord_footprint_id a;
               footprint_name := kw.footprint_name a |}])
          (after_round_trip w))).
Proof.
  intros Ht H1 H2 Hup. unfold create_request. rewrite Ht.
  unfold bind at 1.
  rewrite (new_ComponentRequest_valid _ _ _ _ _ _ _ _ _ _ _ _ _ _ w H1 H2).
  unfold bind at 1. rewrite (insert_up _ _ Hup). reflexivity.
Qed.

(** [create_request] followed by [get_all_requests], with the store up:
    the list is the old collection, in its order, followed by one new
    document; a field given in the call has the given value in it, the key
    is the store's next key, and the date is the time of the call. *)
Theorem create_then_get_all_requests (w : World) (a : kw.t) :
  kw.test a = false ->
  optional_pattern_ok concord_pattern (kw.concord_id a) = true ->
  optional_pattern_ok concord_pattern (kw.concord_footprint_id a) = true ->
  store_up w -> store_up (after_round_trip w) ->
  exists r w',
    create_request a w = (Ret tt, w') /\
    fst (get_all_requests w') = Ret (docs w ++ [r]) /\
    id r = Some (next_id w) /\
    request_date r = clock w /\
    (forall v, kw.requester a = Some v -> requester r = v) /\
    (forall v, kw.status a = Some v -> status r = v) /\
    (forall v, kw.request_type a = Some v -> request_type r = v) /\
    (forall v, kw.librarian a = Some v -> librarian r = v) /\
    (forall v, kw.project a = Some v -> project r = v) /\
    (forall v, kw.task a = Some v -> task r = v) /\
    (forall v, kw.concord_folder a = Some v -> concord_folder r = v) /\
    (forall v, kw.solution a = Some v -> solution r = v) /\
    concord_id r = kw.concord_id a /\
    manufacturer r = kw.manufacturer a /\
    part_number r = kw.part_number a /\
    manufacturer_link r = kw.manufacturer_link a /\
    concord_footprint_id r = kw.concord_footprint_id a /\
    footprint_name r = kw.footprint_name a.
Proof.
  intros Ht H1 H2 Hup1 Hup2.
  rewrite (create_request_run w a Ht H1 H2 Hup1).
  eexists; eexists; split; [reflexivity |]. split.
  - unfold get_all_requests, find_all, bind, gets.
    rewrite (round_trip_up _ (store_up_after_insert w _ _ Hup2)).
    unfold after_round_trip at 1. simpl.
    destruct (faults (after_round_trip w)); reflexivity.
  - simpl. repeat split; intros v ->; reflexivity.
Qed.

End CreateCases.

Section CreateCasesSample1.
Import Py Motor Collections Samples.
Local Open Scope py_scope.

Lemma create_then_get_all_requests_witness :
  exists r w',
    create_request
      (kw_concord (Some "INT-123-456") (Some "FP_7_8") false) one_request
    = (Ret tt, w') /\
    fst (get_all_requests w') = Ret (docs one_request ++ [r]) /\
    id r = Some (next_id one_request) /\
    concord_id r = Some "INT-123-456" /\
    concord_footprint_id r = Some "FP_7_8".
Proof.
  destruct (create_then_get_all_requests one_request
              (kw_concord (Some "INT-123-456") (Some "FP_7_8") false)
              eq_refl eq_refl eq_refl I I)
    as (r & w' & Hc & Hl & Hi & _ & _ & _ & _ & _ & _ & _ & _ & _
        & Hcid & _ & _ & _ & Hfid & _).
  exists r, w'. repeat split; assumption.
Defined.

End CreateCasesSample1.

Section CreateCases1.
Import Py Motor Collections Samples.
Local Open Scope py_scope.

Context {U : Regex.Unicode}.

(** When the store raises while inserting, [create_request] raises the
    same exception and nothing is stored. *)
Theorem create_request_store_failure
    (w : World) (a : kw.t) (e : exn) (fs : list (option exn)) :
  kw.test a = true \/
  (optional_pattern_ok concord_pattern (kw.concord_id a) = true /\
   optional_pattern_ok concord_pattern (kw.concord_footprint_id a) = true) ->
  faults w = Some e :: fs ->
  create_request a w = (Raise e, set_faults fs w).
Proof.
  intros Hv Hfs. unfold create_request.
  destruct (kw.test a).
  - unfold bind at 1.
    rewrite (new_ComponentRequest_valid _ _ _ _ _ _ _ _ _ _ _ _ _ _ w
               canonical_ids_valid canonical_ids_valid).
    unfold bind, insert. unfold bind.
    rewrite (round_trip_down _ _ _ Hfs). reflexivity.
  - destruct Hv as [Hv | [H1 H2]]; [discriminate |].
    unfold bind at 1.
    rewrite (new_ComponentRequest_valid _ _ _ _ _ _ _ _ _ _ _ _ _ _ w H1 H2).
    unfold bind, insert. unfold bind.
    rewrite (round_trip_down _ _ _ Hfs). reflexivity.
Qed.

End CreateCases1.

Section CreateCasesSample2.
Import Py Motor Collections Samples.
Local Open Scope py_scope.

Lemma create_request_store_failure_witness :
  create_request kw.none
    (set_faults [Some (ConnectionFailure "no primary")] one_request)
  = (Raise (ConnectionFailure "no primary"),
     set_faults []
       (set_faults [Some (ConnectionFailure "no primary")] one_request)).
Proof.
  apply (create_request_store_failure
           (set_faults [Some (ConnectionFailure "no primary")] one_request)
           kw.none (ConnectionFailure "no primary") []);
    [right; split; reflexivity | reflexivity].
Defined.

End CreateCasesSample2.

Section CreateCases2.
Import Py Motor Collections Samples.
Local Open Scope py_scope.

Context {U : Regex.Unicode}.





End CreateCases2.

Section CreateCasesSample3.
Import Py Motor Collections Samples.
Local Open Scope py_scope.


End CreateCasesSample3.

(** ** Keys stay as the store keeps them *)

Section KeysInvariant.
Import Py Motor Collections Samples.
Local Open Scope py_scope.

Context {U : Regex.Unicode}.














End KeysInvariant.

Section KeysInvariantSample1.
Import Py Motor Collections Samples.
Local Open Scope py_scope.


End KeysInvariantSample1.

(** ** The shape the pattern describes *)

Section ShapeFacts.
Import Regex Py Motor Collections Samples.

Context {U : Regex.Unicode}.

Lemma lang_star_cls (p : N -> bool) (u : word) :
  lang (Star (Cls p)) u <-> Forall (fun c => p c = true) u.
Proof.
  split.
  - intros H. remember (Star (Cls p)) as s eqn:Es.
    induction H as [| | | | | r | r u v Hu _ Hv IHv]; try discriminate.
    + constructor.
    + injection Es as ->.
      apply lang_cls_inv in Hu as (c & -> & Hc).
      simpl. constructor; [exact Hc | apply IHv; reflexivity].
  - induction 1 as [| c u Hc _ IH].
    + constructor.
    + apply (lang_star_app (Cls p) [c] u); [constructor; exact Hc | exact IH].
Qed.

Lemma lang_plus_cls (p : N -> bool) (u : word) :
  lang (plus (Cls p)) u <-> u <> [] /\ Forall (fun c => p c = true) u.
Proof.
  unfold plus. split.
  - intros H. apply lang_cat_inv in H as (u1 & u2 & -> & H1 & H2).
    apply lang_cls_inv in H1 as (c & -> & Hc).
    apply lang_star_cls in H2. simpl. split; [discriminate |].
    constructor; assumption.
  - intros [Hne H]. destruct H as [| c u Hc H]; [congruence |].
    apply (lang_cat (Cls p) (Star (Cls p)) [c] u).
    + constructor; exact Hc.
    + apply lang_star_cls; exact H.
Qed.

Lemma lang_power_cls (n : nat) (p : N -> bool) (u : word) :
  lang (power n (Cls p)) u <->
  length u = n /\ Forall (fun c => p c = true) u.
Proof.
  revert u. induction n as [| n IH]; intros u; simpl.
  - split.
    + intros H. apply lang_eps_inv in H as ->. split; [reflexivity | constructor].
    + intros [Hl _]. destruct u; [constructor | discriminate].
  - split.
    + intros H. apply lang_cat_inv in H as (u1 & u2 & -> & H1 & H2).
      apply lang_cls_inv in H1 as (c & -> & Hc).
      apply IH in H2 as [Hl Hall]. simpl. split; [congruence |].
      constructor; assumption.
    + intros [Hl Hall]. destruct Hall as [| c u Hc Hall]; [discriminate |].
      simpl in Hl. injection Hl as Hl.
      apply (lang_cat (Cls p) (power n (Cls p)) [c] u).
      * constructor; exact Hc.
      * apply IH. split; assumption.
Qed.

Lemma lang_upto_cls (n : nat) (p : N -> bool) (u : word) :
  lang (upto n (Cls p)) u <->
  length u <= n /\ Forall (fun c => p c = true) u.
Proof.
  revert u. induction n as [| n IH]; intros u; simpl.
  - split.
    + intros H. apply lang_eps_inv in H as ->. split; [reflexivity | constructor].
    + intros [Hl _]. destruct u; [constructor | simpl in Hl; lia].
  - unfold opt. split.
    + intros H. apply lang_alt_inv in H as [H | H].
      * apply lang_cat_inv in H as (u1 & u2 & -> & H1 & H2).
        apply lang_cls_inv in H1 as (c & -> & Hc).
        apply IH in H2 as [Hl Hall]. simpl. split; [lia |].
        constructor; assumption.
      * apply lang_eps_inv in H as ->. simpl. split; [lia | constructor].
    + intros [Hl Hall]. destruct Hall as [| c u Hc Hall].
      * apply lang_alt_r. constructor.
      * simpl in Hl. apply lang_alt_l.
        apply (lang_cat (Cls p) (upto n (Cls p)) [c] u).
        -- constructor; exact Hc.
        -- apply IH. split; [lia | exact Hall].
Qed.

Lemma lang_bounded_cls (m n : nat) (p : N -> bool) (u : word) :
  m <= n ->
  lang (bounded m n (Cls p)) u <->
  (m <= length u /\ length u <= n) /\ Forall (fun c => p c = true) u.
Proof.
  intros Hmn. unfold bounded. split.
  - intros H. apply lang_cat_inv in H as (u1 & u2 & -> & H1 & H2).
    apply lang_power_cls in H1 as [Hl1 Ha1].
    apply lang_upto_cls in H2 as [Hl2 Ha2].
    rewrite List.length_app. split; [lia |].
    apply Forall_app. split; assumption.
  - intros [[Hlo Hhi] Hall].
    rewrite <- (firstn_skipn m u) in Hall |- *.
    apply Forall_app in Hall as [Ha1 Ha2].
    apply lang_cat.
    + apply lang_power_cls. split; [| exact Ha1].
      rewrite List.length_firstn. lia.
    + apply lang_upto_cls. split; [| exact Ha2].
      rewrite List.length_skipn. lia.
Qed.

(** The language of the pattern is the shape it is meant to describe. *)
Lemma concord_pattern_shape (u : word) :
  lang concord_pattern u <-> concord_shape u.
Proof.
  unfold concord_pattern, concord_shape. split.
  - intros H.
    apply lang_cat_inv in H as (l & u1 & -> & Hl & H).
    apply lang_cat_inv in H as (s1 & u2 & -> & Hs1 & H).
    apply lang_cat_inv in H as (d1 & u3 & -> & Hd1 & H).
    apply lang_cat_inv in H as (s2 & d2 & -> & Hs2 & Hd2).
    apply lang_bounded_cls in Hl as [Hlen Hl]; [| lia].
    apply lang_cls_inv in Hs1 as (c1 & -> & Hc1).
    apply lang_cls_inv in Hs2 as (c2 & -> & Hc2).
    apply lang_plus_cls in Hd1 as [Hn1 Hd1].
    apply lang_plus_cls in Hd2 as [Hn2 Hd2].
    exists l, c1, d1, c2, d2. simpl. repeat split; try assumption; lia.
  - intros (l & c1 & d1 & c2 & d2 & -> & Hlen & Hl & Hc1 & Hn1 & Hd1
            & Hc2 & Hn2 & Hd2).
    apply lang_cat; [apply lang_bounded_cls; [lia | split; assumption] |].
    apply (lang_cat _ _ [c1] (d1 ++ c2 :: d2)); [constructor; exact Hc1 |].
    apply lang_cat; [apply lang_plus_cls; split; assumption |].
    apply (lang_cat _ _ [c2] d2); [constructor; exact Hc2 |].
    apply lang_plus_cls; split; assumption.
Qed.

(** The constraint on the two Concord fields accepts a value exactly when
    somewhere in it there are one to six ASCII letters, a separator, one
    or more decimal digits, a separator, and one or more decimal digits,
    in that order and with nothing in between, a decimal digit being one
    of [0-9] or of the engine's Unicode table; the anchored reading asks
    the same of the whole value. Positions are counted in code points. *)
Theorem pattern_ok_shape (value : string) :
  (pattern_ok concord_pattern value = true <->
   exists before u after,
     code_points value = before ++ u ++ after /\ concord_shape u) /\
  (anchored_ok value = true <-> concord_shape (code_points value)).
Proof.
  split.
  - unfold pattern_ok. rewrite search_spec. split.
    + intros (a & u & b & Eq & H). exists a, u, b.
      split; [exact Eq | apply concord_pattern_shape; exact H].
    + intros (a & u & b & Eq & H). exists a, u, b.
      split; [exact Eq | apply concord_pattern_shape; exact H].
  - unfold anchored_ok. rewrite matches_lang. apply concord_pattern_shape.
Qed.

(** A value the constraint accepts has at least five code points, among
    them an ASCII letter, a decimal digit (one of [0-9] or of the
    engine's Unicode table) and a separator. *)
Theorem pattern_ok_needs (value : string) :
  pattern_ok concord_pattern value = true ->
  5 <= length (code_points value) /\
  existsb letter (code_points value) = true /\
  existsb digit (code_points value) = true /\
  existsb separator (code_points value) = true.
Proof.
  intros H. apply (proj1 (pattern_ok_shape value)) in H
    as (a & u & b & Eq & l & c1 & d1 & c2 & d2 & -> & Hlen & Hl & Hc1 & Hn1
        & Hd1 & Hc2 & Hn2 & Hd2).
  rewrite Eq. clear Eq.
  destruct l as [| x l]; [simpl in Hlen; lia |].
  destruct d1 as [| y d1]; [congruence |].
  destruct d2 as [| z d2]; [congruence |].
  apply Forall_cons_iff in Hl as [Hx _].
  apply Forall_cons_iff in Hd1 as [Hy _].
  split; [| split; [| split]].
  - rewrite !List.length_app. simpl. rewrite !List.length_app. simpl. lia.
  - apply existsb_exists. exists x. split; [| exact Hx].
    repeat first [rewrite in_app_iff | progress simpl]. intuition.
  - apply existsb_exists. exists y. split; [| exact Hy].
    repeat first [rewrite in_app_iff | progress simpl]. intuition.
  - apply existsb_exists. exists c1. split; [| exact Hc1].
    repeat first [rewrite in_app_iff | progress simpl]. intuition.
Qed.

End ShapeFacts.

Section ShapeFactsSample1.
Import Regex Py Motor Collections Samples.

Lemma pattern_ok_needs_witness :
  pattern_ok concord_pattern "see INT-١٢٣-٤٥٦" = true /\
  5 <= length (code_points "see INT-١٢٣-٤٥٦") /\
  existsb letter (code_points "see INT-١٢٣-٤٥٦") = true /\
  existsb digit (code_points "see INT-١٢٣-٤٥٦") = true /\
  existsb separator (code_points "see INT-١٢٣-٤٥٦") = true.
Proof.
  split; [reflexivity |].
  apply (pattern_ok_needs "see INT-١٢٣-٤٥٦"). reflexivity.
Defined.

End ShapeFactsSample1.

(** ** The helpers of mongo.py *)

Section MongoCases.
Import Py Motor Samples.
Local Open Scope py_scope.

(** [get_mongo_uri] never hands back an empty connection string and never
    touches the process: it returns the value of [MONGO_URI] or, when the
    variable is absent, the fall-back reference; it raises, with an
    [AssertionError], only when the variable is set to the empty
    string. *)
Theorem get_mongo_uri_outcome (verbose : bool) (p : Mongo.Process) :
  match Mongo.get_mongo_uri verbose p with
  | (Ret uri, p') =>
      p' = p /\ uri <> "" /\
      uri = getenv_default (Mongo.environ p) "MONGO_URI"
              "op://Dev/Mongo-AppliedLogix/uri"
  | (Raise e, p') =>
      p' = p /\
      e = AssertionError "MONGO_URI is not set in environment variables." /\
      getenv (Mongo.environ p) "MONGO_URI" = Some ""
  end.
Proof.
  rewrite get_mongo_uri_cases. unfold getenv_default, getenv.
  destruct (Mongo.environ p !! "MONGO_URI") as [[| c uri] |];
    repeat split; discriminate.
Qed.

(** When [get_client] fails, whatever the cause, the caller gets a
    [ConnectionError] whose message names the cause, and that same line
    has been written to the console. *)
Theorem get_client_failure_logged
    (verbose : bool) (p p' : Mongo.Process) (e : exn) :
  Mongo.get_client verbose p = (Raise e, p') ->
  exists cause,
    e = ConnectionError (failed_to_connect cause) /\
    p' = logged (failed_to_connect cause) p.
Proof.
  unfold Mongo.get_client, try_except, bind, gets, lift.
  rewrite get_mongo_uri_cases. unfold getenv.
  destruct (Mongo.environ p !! "MONGO_URI") as [[| c uri] |]; simpl.
  - intros [= <- <-].
    exists (AssertionError "MONGO_URI is not set in environment variables.").
    split; reflexivity.
  - destruct (AsyncIOMotorClient (Mongo.motor p) _) as [cl | cause]; simpl.
    + destruct verbose; simpl; discriminate.
    + intros [= <- <-]. exists cause. split; reflexivity.
  - destruct (AsyncIOMotorClient (Mongo.motor p) _) as [cl | cause]; simpl.
    + destruct verbose; simpl; discriminate.
    + intros [= <- <-]. exists cause. split; reflexivity.
Qed.

Lemma get_client_failure_logged_witness :
  exists cause,
    ConnectionError
      "Failed to connect to the database: MONGO_URI is not set in environment variables."
    = ConnectionError (failed_to_connect cause) /\
    logged
      "Failed to connect to the database: MONGO_URI is not set in environment variables."
      (process {[ "MONGO_URI" := "" ]})
    = logged (failed_to_connect cause) (process {[ "MONGO_URI" := "" ]}).
Proof.
  apply (get_client_failure_logged false (process {[ "MONGO_URI" := "" ]})).
  reflexivity.
Defined.

(** When the driver takes the connection string, [get_client] returns the
    driver's client for the value of [MONGO_URI], or for the fall-back
    reference when the variable is absent; it writes to the console only
    when asked to be verbose. *)
Theorem get_client_connects (p : Mongo.Process) (c : Client) :
  getenv (Mongo.environ p) "MONGO_URI" <> Some "" ->
  AsyncIOMotorClient (Mongo.motor p)
    (Some (getenv_default (Mongo.environ p) "MONGO_URI"
             "op://Dev/Mongo-AppliedLogix/uri")) = Ret c ->
  Mongo.get_client false p = (Ret c, p) /\
  Mongo.get_client true p =
    (Ret c,
     logged "[i #00ff00]Connected to the[/][b #ffffff]Requests[/] [i #00ff00]database...[/]" p).
Proof.
  unfold Mongo.get_client, try_except, bind, gets, lift.
  rewrite get_mongo_uri_cases. unfold getenv, getenv_default.
  destruct (Mongo.environ p !! "MONGO_URI") as [[| ch uri] |];
    [congruence | |]; intros _ ->; simpl; split; reflexivity.
Qed.

Lemma get_client_connects_witness :
  Mongo.get_client false
    (process {[ "MONGO_URI" := "mongodb://localhost:27017" ]})
  = (Ret {| client_host := Some "mongodb://localhost:27017" |},
     process {[ "MONGO_URI" := "mongodb://localhost:27017" ]}) /\
  Mongo.get_client true
    (process {[ "MONGO_URI" := "mongodb://localhost:27017" ]})
  = (Ret {| client_host := Some "mongodb://localhost:27017" |},
     logged "[i #00ff00]Connected to the[/][b #ffffff]Requests[/] [i #00ff00]database...[/]"
       (process {[ "MONGO_URI" := "mongodb://localhost:27017" ]})).
Proof.
  apply (get_client_connects
           (process {[ "MONGO_URI" := "mongodb://localhost:27017" ]})
           {| client_host := Some "mongodb://localhost:27017" |});
    [discriminate | reflexivity].
Defined.

(** [get_requests_db] does not pass its [verbose] argument on: when it
    returns, nothing has been written to the console and the database is
    the driver's for the name in [MONGO_DB], or for the fall-back
    reference when that variable is absent; when it fails, the caller
    gets a [ConnectionError] naming the cause. *)
Theorem get_requests_db_outcome (verbose : bool) (p : Mongo.Process) :
  match Mongo.get_requests_db verbose p with
  | (Ret db, p') =>
      p' = p /\
      exists c,
        AsyncIOMotorClient (Mongo.motor p)
          (Some (getenv_default (Mongo.environ p) "MONGO_URI"
                   "op://Dev/Mongo-AppliedLogix/uri")) = Ret c /\
        get_database (Mongo.motor p) c
          (getenv_default (Mongo.environ p) "MONGO_DB"
             "op://Dev/Mongo-AppliedLogix/db") = Ret db
  | (Raise e, p') =>
      exists cause, e = ConnectionError (failed_to_connect cause)
  end.
Proof.
  unfold Mongo.get_requests_db, Mongo.get_client, Mongo.VERBOSE,
    try_except, bind, gets, lift.
  rewrite get_mongo_uri_cases. unfold getenv, getenv_default.
  destruct (Mongo.environ p !! "MONGO_URI") as [[| ch uri] |]; simpl.
  - exists (AssertionError "MONGO_URI is not set in environment variables.").
    reflexivity.
  - destruct (AsyncIOMotorClient (Mongo.motor p) _) as [cl | cause] eqn:Hc;
      simpl; [| exists cause; reflexivity].
    destruct (get_database (Mongo.motor p) cl _) as [db | cause] eqn:Hdb;
      simpl; [| exists cause; reflexivity].
    split; [reflexivity |]. exists cl. split; [reflexivity | exact Hdb].
  - destruct (AsyncIOMotorClient (Mongo.motor p) _) as [cl | cause] eqn:Hc;
      simpl; [| exists cause; reflexivity].
    destruct (get_database (Mongo.motor p) cl _) as [db | cause] eqn:Hdb;
      simpl; [| exists cause; reflexivity].
    split; [reflexivity |]. exists cl. split; [reflexivity | exact Hdb].
Qed.

End MongoCases.

(** ** [ComponentRequest.init_db] and the example run *)

Section InitCases.
Import Py Motor Collections Samples.
Local Open Scope py_scope.

Context {U : Regex.Unicode}.

(** [init_db] wraps nothing and writes nothing: when it returns, the
    database is the driver's for the value of [MONGO_URI] as it is, absent
    or not, and for the name in [MONGO_DB] or ["requests"]; when it raises,
    the exception is the one the client constructor, the database
    accessor or the store raised. The collection is untouched either
    way. *)
Theorem init_db_outcome (w : World) :
  match init_db w with
  | (Ret db, w') =>
      docs w' = docs w /\ stdout w' = stdout w /\
      store_up w /\
      exists c,
        AsyncIOMotorClient (motor w) (getenv (environ w) "MONGO_URI") = Ret c /\
        get_database (motor w) c
          (getenv_default (environ w) "MONGO_DB" "requests") = Ret db
  | (Raise e, w') =>
      docs w' = docs w /\ stdout w' = stdout w /\
      (AsyncIOMotorClient (motor w) (getenv (environ w) "MONGO_URI") = Raise e \/
       (exists c,
          AsyncIOMotorClient (motor w) (getenv (environ w) "MONGO_URI") = Ret c /\
          get_database (motor w) c
            (getenv_default (environ w) "MONGO_DB" "requests") = Raise e) \/
       (exists fs, faults w = Some e :: fs))
  end.
Proof.
  unfold init_db, init_beanie, bind, gets, lift, ret.
  destruct (AsyncIOMotorClient (motor w) _) as [c | e] eqn:Hc; simpl;
    [| auto].
  destruct (get_database (motor w) c _) as [db | e] eqn:Hdb; simpl;
    [| split; [reflexivity |]; split; [reflexivity |]; right; left; eauto].
  unfold round_trip, store_up.
  destruct (faults w) as [| [e |] fs]; simpl.
  - repeat split; eauto.
  - repeat split; try reflexivity. right. right. eauto.
  - repeat split; eauto.
Qed.

Lemma init_db_up (w : World) (c : Client) (db : Database) :
  AsyncIOMotorClient (motor w) (getenv (environ w) "MONGO_URI") = Ret c ->
  get_database (motor w) c
    (getenv_default (environ w) "MONGO_DB" "requests") = Ret db ->
  store_up w ->
  init_db w = (Ret db, after_round_trip w).
Proof.
  intros Hc Hdb Hup.
  unfold init_db, init_beanie, bind, gets, lift, ret.
  rewrite Hc, Hdb, (round_trip_up _ Hup). reflexivity.
Qed.

Lemma print_each_run (repr : ComponentRequest -> string)
    (requests : list ComponentRequest) (w : World) :
  print_each repr requests w =
    (Ret tt, set_stdout (stdout w ++ List.map repr requests) w).
Proof.
  revert w. induction requests as [| r rest IH]; intros w; simpl.
  - destruct w; unfold ret, set_stdout; simpl. rewrite app_nil_r. reflexivity.
  - unfold bind, print, modify. rewrite IH.
    destruct w; unfold set_stdout; simpl. rewrite <- app_assoc. reflexivity.
Qed.

(** [main] never returns: whatever the driver and the store do, a call
    ends in an exception. *)
Theorem main_never_returns (repr : ComponentRequest -> string) (w : World) :
  exists e w', main repr w = (Raise e, w').
Proof.
  unfold main. unfold bind at 1.
  match goal with |- context [match ?m w with _ => _ end] =>
    destruct (m w) as [[[] | e] w1] end; unfold raise; eauto.
Qed.

End InitCases.

Section MainRun.
Import Py Motor Collections Samples.
Local Open Scope py_scope.

Context {U : Regex.Unicode}.

Lemma docs_after_round_trip (w : World) :
  docs (after_round_trip w) = docs w.
Proof. exact (proj1 (after_round_trip_frame w)). Qed.

Lemma next_id_after_round_trip (w : World) :
  next_id (after_round_trip w) = next_id w.
Proof. exact (proj1 (proj2 (after_round_trip_frame w))). Qed.

Lemma stdout_after_round_trip (w : World) :
  stdout (after_round_trip w) = stdout w.
Proof. exact (proj2 (proj2 (proj2 (after_round_trip_frame w)))). Qed.

(** With the driver and the store answering, [main] stores one request
    built from the defaults, prints every stored request in storage order
    with the new one last, and then fails on its closing
    [asyncio.run(main())]. *)
Theorem main_prints_then_raises
    (repr : ComponentRequest -> string) (w : World)
    (c : Client) (db : Database) :
  AsyncIOMotorClient (motor w) (getenv (environ w) "MONGO_URI") = Ret c ->
  get_database (motor w) c
    (getenv_default (environ w) "MONGO_DB" "requests") = Ret db ->
  store_up w ->
  store_up (after_round_trip w) ->
  store_up (after_round_trip (after_round_trip w)) ->
  exists r w',
    main repr w =
      (Raise (OtherError "asyncio.run() cannot be called from a running event loop"),
       w') /\
    docs w' = docs w ++ [r] /\
    stdout w' = stdout w ++ List.map repr (docs w ++ [r]) /\
    id r = Some (next_id w) /\
    status r = NEW /\ request_type r = COMPONENT_FULL /\
    librarian r = RAYMOND_GLOVER /\ solution r = EXISTING /\
    requester r = "" /\ concord_id r = None.
Proof.
  intros Hc Hdb Hup1 Hup2 Hup3.
  unfold main, try_except, bind.
  rewrite (init_db_up w c db Hc Hdb Hup1). cbv beta iota.
  rewrite (create_request_run (after_round_trip w) kw.none
             eq_refl eq_refl eq_refl Hup2). cbv beta iota.
  unfold get_all_requests, find_all, bind, gets.
  rewrite (round_trip_up _ (store_up_after_insert _ _ _ Hup3)). cbv beta iota.
  rewrite print_each_run. unfold raise.
  eexists; eexists; split; [reflexivity |].
  repeat (progress (simpl;
    rewrite ?docs_after_round_trip, ?stdout_after_round_trip,
      ?next_id_after_round_trip)).
  repeat split.
Qed.

End MainRun.

Section MainRunSample1.
Import Py Motor Collections Samples.
Local Open Scope py_scope.

Lemma main_prints_then_raises_witness :
  exists r w',
    main by_requester one_request =
      (Raise (OtherError "asyncio.run() cannot be called from a running event loop"),
       w') /\
    docs w' = docs one_request ++ [r] /\
    stdout w' = stdout one_request ++ List.map by_requester (docs one_request ++ [r]) /\
    id r = Some (next_id one_request) /\
    status r = NEW /\ request_type r = COMPONENT_FULL /\
    librarian r = RAYMOND_GLOVER /\ solution r = EXISTING /\
    requester r = "" /\ concord_id r = None.
Proof.
  apply (main_prints_then_raises by_requester one_request
           {| client_host := None |}
           {| db_client := {| client_host := None |}; db_name := "requests" |});
    [reflexivity | reflexivity | exact I | exact I | exact I].
Defined.

End MainRunSample1.

(** ** Labels of the enumerations *)

Section EnumFacts.
Import Py Motor Collections Samples.

Lemma by_value_sound {E : Type} (cls : string) (value_of : E -> string)
    (members : list E) (value : string) (m : E) :
  by_value cls value_of members value = Ret m -> value_of m = value.
Proof.
  unfold by_value.
  destruct (List.find (fun m => String.eqb (value_of m) value) members)
    as [m' |] eqn:Hf; [| discriminate].
  intros [= <-]. apply find_some in Hf as [_ Hm].
  apply String.eqb_eq. exact Hm.
Qed.

(** A member is found again from its label, in each of the four
    enumerations, so no two members share a label; and a look-up that
    succeeds returns a member with exactly the label asked for. *)
Theorem enum_label_round_trip :
  (forall s, Status_of_value (Status_value s) = Ret s) /\
  (forall t, RequestType_of_value (RequestType_value t) = Ret t) /\
  (forall l, Librarian_of_value (Librarian_value l) = Ret l) /\
  (forall s, Solution_of_value (Solution_value s) = Ret s) /\
  (forall v s, Status_of_value v = Ret s <-> Status_value s = v) /\
  (forall v t, RequestType_of_value v = Ret t <-> RequestType_value t = v) /\
  (forall v l, Librarian_of_value v = Ret l <-> Librarian_value l = v) /\
  (forall v s, Solution_of_value v = Ret s <-> Solution_value s = v).
Proof.
  assert (H1 : forall s, Status_of_value (Status_value s) = Ret s)
    by (intros []; reflexivity).
  assert (H2 : forall t, RequestType_of_value (RequestType_value t) = Ret t)
    by (intros []; reflexivity).
  assert (H3 : forall l, Librarian_of_value (Librarian_value l) = Ret l)
    by (intros []; reflexivity).
  assert (H4 : forall s, Solution_of_value (Solution_value s) = Ret s)
    by (intros []; reflexivity).
  repeat split; auto; try (apply by_value_sound); intros <-; auto.
Qed.

End EnumFacts.
